(** * Verification of scripts/bump_versions.py

    A shallow embedding of the version-bumping script: the Python string
    primitives it relies on, the file store and console it acts on, the
    registry of packages, and the substitution engine with its two drivers. *)

From Stdlib Require Import Ascii String List Arith Lia Bool DecimalString.
From stdpp Require Import gmap strings list.

(** ** Python [str] primitives

    A [str] is modelled as a [string]; a character is a code point below 256. *)

Module PyStr.

(** [s.startswith(p)] *)
Definition startswith (p s : string) : bool := String.prefix p s.

(** [sub in s]: [sub] occurs at some position of [s]. *)
Fixpoint contains (sub s : string) : bool :=
  startswith sub s ||
  match s with
  | EmptyString => false
  | String _ s' => contains sub s'
  end.

(** Number of positions of [s] at which [sub] occurs (overlaps counted). *)
Fixpoint occurrences (sub s : string) : nat :=
  (if startswith sub s then 1 else 0) +
  match s with
  | EmptyString => 0
  | String _ s' => occurrences sub s'
  end.

(** [s.replace(old, new)] for the empty [old]: [new] is put before every
    character and at the end. *)
Fixpoint replace_interleave (new s : string) : string :=
  match s with
  | EmptyString => new
  | String c s' => new +:+ String c (replace_interleave new s')
  end.

(** [s.replace(old, new)] for a non-empty [old]: a left-to-right scan; at a
    match, [new] is emitted and the scan resumes after the match ([skip]
    counts the characters of the match still to be passed over). *)
Fixpoint replace_scan (old new : string) (skip : nat) (s : string) : string :=
  match s with
  | EmptyString => EmptyString
  | String c s' =>
      match skip with
      | S k => replace_scan old new k s'
      | O =>
          if startswith old s
          then new +:+ replace_scan old new (String.length old - 1) s'
          else String c (replace_scan old new 0 s')
      end
  end.

(** [s.replace(old, new)] *)
Definition replace (old new s : string) : string :=
  match old with
  | EmptyString => replace_interleave new s
  | String _ _ => replace_scan old new 0 s
  end.

(** Result of [template.format(kw=value)]. [FormatValueError] is Python's
    [ValueError] for an unbalanced brace. [FormatFieldError] stands for a
    replacement field other than the plain [{kw}]. The model is exact on the
    templates whose fields are all the plain [{kw}], as are those of the
    registry; every other field is reported under this one constructor,
    whatever Python does with it: Python raises [KeyError] or [IndexError] for
    another plain field name and [ValueError] for a [{] inside a field name,
    and it renders a field that has a conversion, a format spec, an attribute
    or an index access. The theorems speak of templates that render in the
    model, or of the unbalanced brace. *)
Inductive format_error := FormatValueError | FormatFieldError.

Inductive format_state :=
  | Literal
  | Field (name : string).

Definition lbrace : ascii := "{"%char.
Definition rbrace : ascii := "}"%char.

Fixpoint format_scan (kw value : string) (st : format_state) (s : string)
  : format_error + string :=
  match s with
  | EmptyString =>
      match st with
      | Literal => inr EmptyString
      | Field _ => inl FormatValueError
      end
  | String c s' =>
      match st with
      | Literal =>
          if Ascii.eqb c lbrace then
            match s' with
            | String c' s'' =>
                if Ascii.eqb c' lbrace
                then match format_scan kw value Literal s'' with
                     | inr r => inr (String lbrace r)
                     | inl e => inl e
                     end
                else format_scan kw value (Field EmptyString) s'
            | EmptyString => inl FormatValueError
            end
          else if Ascii.eqb c rbrace then
            match s' with
            | String c' s'' =>
                if Ascii.eqb c' rbrace
                then match format_scan kw value Literal s'' with
                     | inr r => inr (String rbrace r)
                     | inl e => inl e
                     end
                else inl FormatValueError
            | EmptyString => inl FormatValueError
            end
          else
            match format_scan kw value Literal s' with
            | inr r => inr (String c r)
            | inl e => inl e
            end
      | Field name =>
          if Ascii.eqb c rbrace then
            if String.eqb name kw
            then match format_scan kw value Literal s' with
                 | inr r => inr (value +:+ r)
                 | inl e => inl e
                 end
            else inl FormatFieldError
          else format_scan kw value (Field (name +:+ String c EmptyString)) s'
      end
  end.

(** [template.format(kw=value)] *)
Definition format (template kw value : string) : format_error + string :=
  format_scan kw value Literal template.

(** Characters removed by [str.strip()]: TAB..CR, FS..US, space, NEL, NBSP. *)
Definition is_space (c : ascii) : bool :=
  let n := nat_of_ascii c in
  ((9 <=? n) && (n <=? 13)) || ((28 <=? n) && (n <=? 32))
  || (n =? 133) || (n =? 160).

Fixpoint lstrip (s : string) : string :=
  match s with
  | EmptyString => EmptyString
  | String c s' => if is_space c then lstrip s' else s
  end.

Fixpoint rstrip (s : string) : string :=
  match s with
  | EmptyString => EmptyString
  | String c s' =>
      match rstrip s' with
      | EmptyString => if is_space c then EmptyString else String c EmptyString
      | r => String c r
      end
  end.

(** [s.strip()] *)
Definition strip (s : string) : string := rstrip (lstrip s).

(** [sep.join(parts)] *)
Fixpoint join (sep : string) (parts : list string) : string :=
  match parts with
  | [] => EmptyString
  | [p] => p
  | p :: ps => p +:+ sep +:+ join sep ps
  end.

(** Truthiness of a [str]: non-empty. *)
Definition truthy (s : string) : bool :=
  match s with
  | EmptyString => false
  | String _ _ => true
  end.

End PyStr.

(** Characters used to build the literals of the script. *)
Definition nl : string := String "010"%char EmptyString.
Definition dquote : string := String "034"%char EmptyString.

(** ** Paths ([pathlib], POSIX flavour)

    A path is its anchor flag and its components. Which file a path denotes is
    decided by the operating system; the file store below takes that map as a
    parameter. *)

Module PyPath.

Record Path := mkPath { is_absolute : bool; parts : list string }.

(** [str(path)] *)
Definition to_str (p : Path) : string :=
  if is_absolute p then "/" +:+ PyStr.join "/" (parts p)
  else match parts p with
       | [] => "."
       | _ => PyStr.join "/" (parts p)
       end.

Fixpoint strip_parts (pre l : list string) : option (list string) :=
  match pre, l with
  | [], _ => Some l
  | x :: pre', y :: l' => if String.eqb x y then strip_parts pre' l' else None
  | _ :: _, [] => None
  end.

(** [p.relative_to(other)]; [None] is Python's [ValueError]. *)
Definition relative_to (p other : Path) : option Path :=
  if Bool.eqb (is_absolute p) (is_absolute other) then
    match strip_parts (parts other) (parts p) with
    | Some rest => Some (mkPath false rest)
    | None => None
    end
  else None.

(** [Path("a/b/c")] for a relative name given by its components. *)
Definition rel (components : list string) : Path := mkPath false components.

End PyPath.

(** ** [str.splitlines] *)

Module PyLines.

(** Line boundaries of [str.splitlines]: LF, VT, FF, CR, FS, GS, RS, NEL. *)
Definition is_linebreak (c : ascii) : bool :=
  let n := nat_of_ascii c in
  ((10 <=? n) && (n <=? 13)) || ((28 <=? n) && (n <=? 30)) || (n =? 133).

Definition is_cr (c : ascii) : bool := nat_of_ascii c =? 13.
Definition is_lf (c : ascii) : bool := nat_of_ascii c =? 10.

(** [cur] is the line being read: [None] when no character of it has been
    seen yet. A line is emitted at each boundary (CR LF counts once) and at
    the end of the text when characters are pending. *)
Fixpoint splitlines_from (cur : option string) (s : string) : list string :=
  match s with
  | EmptyString =>
      match cur with
      | None => []
      | Some line => [line]
      end
  | String c s' =>
      if is_linebreak c then
        default EmptyString cur ::
        match s' with
        | String c' s'' =>
            if is_cr c && is_lf c' then splitlines_from None s''
            else splitlines_from None s'
        | EmptyString => []
        end
      else
        splitlines_from (Some (default EmptyString cur +:+ String c EmptyString)) s'
  end.

(** [s.splitlines()] *)
Definition splitlines (s : string) : list string := splitlines_from None s.

End PyLines.

(** ** [difflib.context_diff]

    The standard library's sequence matcher and context-diff formatter, as
    called by the script: no junk predicate, [autojunk] on, empty file dates,
    line terminator LF. Indices are natural numbers; every subtraction below
    is one whose Python operands are ordered. *)

Module Difflib.

Inductive tag := Replace | Delete | Insert | Equal.

Definition tag_eqb (t u : tag) : bool :=
  match t, u with
  | Replace, Replace | Delete, Delete | Insert, Insert | Equal, Equal => true
  | _, _ => false
  end.

(** A match [(i, j, size)] and an opcode [(tag, i1, i2, j1, j2)]. *)
Definition block : Type := nat * nat * nat.
Record opcode := mkOp { op_tag : tag; op_i1 : nat; op_i2 : nat; op_j1 : nat; op_j2 : nat }.

(** [str(n)] for a non-negative [int]. *)
Definition str_of_nat (n : nat) : string := NilEmpty.string_of_uint (Nat.to_uint n).

(** [l[i:j]] *)
Definition slice {A} (l : list A) (i j : nat) : list A := take (j - i) (drop i l).

Definition line_eqb (x y : option string) : bool :=
  match x, y with
  | Some u, Some v => String.eqb u v
  | _, _ => false
  end.

Section Matcher.

Variables a b : list string.

(** Positions of [elt] in [l], counted from [start], in increasing order. *)
Fixpoint indices_from (elt : string) (start : nat) (l : list string) : list nat :=
  match l with
  | [] => []
  | x :: l' =>
      (if String.eqb x elt then [start] else []) ++ indices_from elt (S start) l'
  end.

(** [b2j.get(elt, [])] after [__chain_b]: with 200 lines or more, an element
    occurring more than [n // 100 + 1] times is purged as popular. *)
Definition b2j (elt : string) : list nat :=
  let idxs := indices_from elt 0 b in
  let n := length b in
  if (200 <=? n) && (n / 100 + 1 <? length idxs) then [] else idxs.

Record best := mkBest { besti : nat; bestj : nat; bestsize : nat }.

(** The inner loop of [find_longest_match] over the positions [j] of [a[i]]
    in [b]; [j2len.get(j-1, 0)] is [0] at [j = 0]. *)
Fixpoint match_row (blo bhi i : nat) (j2len : gmap nat nat) (js : list nat)
    (newj2len : gmap nat nat) (bst : best) : gmap nat nat * best :=
  match js with
  | [] => (newj2len, bst)
  | j :: js' =>
      if j <? blo then match_row blo bhi i j2len js' newj2len bst
      else if bhi <=? j then (newj2len, bst)
      else
        let k := match j with
                 | O => 0
                 | S j' => default 0 (j2len !! j')
                 end + 1 in
        match_row blo bhi i j2len js' (<[j := k]> newj2len)
          (if bestsize bst <? k then mkBest (i + 1 - k) (j + 1 - k) k else bst)
  end.

(** The outer loop, over [i] in [range(alo, ahi)]. *)
Fixpoint match_rows (blo bhi : nat) (rows : list nat) (j2len : gmap nat nat)
    (bst : best) : best :=
  match rows with
  | [] => bst
  | i :: rows' =>
      let js := match a !! i with
                | Some elt => b2j elt
                | None => []
                end in
      let '(newj2len, bst') := match_row blo bhi i j2len js ∅ bst in
      match_rows blo bhi rows' newj2len bst'
  end.

(** First [while]: grow the match to the left. *)
Fixpoint extend_left (alo blo : nat) (i j size : nat) : best :=
  match i, j with
  | S i', S j' =>
      if (alo <? i) && (blo <? j) && line_eqb (a !! i') (b !! j')
      then extend_left alo blo i' j' (size + 1)
      else mkBest i j size
  | _, _ => mkBest i j size
  end.

(** Second [while]: grow it to the right; [room] bounds the iterations by
    [ahi - (besti + bestsize)]. *)
Fixpoint extend_right (ahi bhi : nat) (i j : nat) (room : nat) (size : nat) : nat :=
  match room with
  | O => size
  | S room' =>
      if (i + size <? ahi) && (j + size <? bhi)
         && line_eqb (a !! (i + size)) (b !! (j + size))
      then extend_right ahi bhi i j room' (size + 1)
      else size
  end.

(** [find_longest_match(alo, ahi, blo, bhi)]; the two loops over junk do
    nothing, the junk set being empty. *)
Definition find_longest_match (alo ahi blo bhi : nat) : block :=
  let m := match_rows blo bhi (seq alo (ahi - alo)) ∅ (mkBest alo blo 0) in
  let l := extend_left alo blo (besti m) (bestj m) (bestsize m) in
  let size := extend_right ahi bhi (besti l) (bestj l)
                (ahi - (besti l + bestsize l)) (bestsize l) in
  (besti l, bestj l, size).

(** The queue loop of [get_matching_blocks]: [queue.pop()] takes the last
    entry. *)
Fixpoint matching_loop (fuel : nat) (queue : list (nat * nat * nat * nat))
    (acc : list block) : list block :=
  match fuel with
  | O => acc
  | S fuel' =>
      match reverse queue with
      | [] => acc
      | (alo, ahi, blo, bhi) :: rest_rev =>
          let rest := reverse rest_rev in
          let '(i, j, k) := find_longest_match alo ahi blo bhi in
          if k =? 0 then matching_loop fuel' rest acc
          else
            let q1 := if (alo <? i) && (blo <? j)
                      then rest ++ [(alo, i, blo, j)] else rest in
            let q2 := if (i + k <? ahi) && (j + k <? bhi)
                      then q1 ++ [(i + k, ahi, j + k, bhi)] else q1 in
            matching_loop fuel' q2 (acc ++ [(i, j, k)])
      end
  end.

Definition block_leb (x y : block) : bool :=
  let '(i1, j1, k1) := x in
  let '(i2, j2, k2) := y in
  (i1 <? i2) || ((i1 =? i2) && ((j1 <? j2) || ((j1 =? j2) && (k1 <=? k2)))).

Fixpoint insert_block (x : block) (l : list block) : list block :=
  match l with
  | [] => [x]
  | y :: l' => if block_leb x y then x :: l else y :: insert_block x l'
  end.

(** [matching_blocks.sort()] *)
Definition sort_blocks (l : list block) : list block :=
  foldr insert_block [] l.

(** Collapse adjacent blocks; [cur] is the block [(i1, j1, k1)] being grown. *)
Fixpoint collapse (cur : block) (l : list block) : list block :=
  let '(i1, j1, k1) := cur in
  match l with
  | [] => if k1 =? 0 then [] else [cur]
  | (i2, j2, k2) :: l' =>
      if (i1 + k1 =? i2) && (j1 + k1 =? j2)
      then collapse (i1, j1, k1 + k2) l'
      else (if k1 =? 0 then [] else [cur]) ++ collapse (i2, j2, k2) l'
  end.

(** [get_matching_blocks()]: every pass of the queue loop that adds entries
    removes a matched line of [a] from play, so [2 * len(a) + 1] passes
    empty the queue. *)
Definition get_matching_blocks : list block :=
  let la := length a in
  let lb := length b in
  let found := matching_loop (2 * la + 1) [(0, la, 0, lb)] [] in
  collapse (0, 0, 0) (sort_blocks found) ++ [(la, lb, 0)].

Fixpoint opcodes_from (i j : nat) (blocks : list block) : list opcode :=
  match blocks with
  | [] => []
  | (ai, bj, size) :: blocks' =>
      (if (i <? ai) && (j <? bj) then [mkOp Replace i ai j bj]
       else if i <? ai then [mkOp Delete i ai j bj]
       else if j <? bj then [mkOp Insert i ai j bj]
       else [])
      ++ (if size =? 0 then [] else [mkOp Equal ai (ai + size) bj (bj + size)])
      ++ opcodes_from (ai + size) (bj + size) blocks'
  end.

(** [get_opcodes()] *)
Definition get_opcodes : list opcode := opcodes_from 0 0 get_matching_blocks.

End Matcher.

(** Trimming of a leading and of a trailing [equal] opcode to [n] lines. *)
Definition trim_first (n : nat) (codes : list opcode) : list opcode :=
  match codes with
  | mkOp Equal i1 i2 j1 j2 :: rest =>
      mkOp Equal (Nat.max i1 (i2 - n)) i2 (Nat.max j1 (j2 - n)) j2 :: rest
  | _ => codes
  end.

Fixpoint trim_last (n : nat) (codes : list opcode) : list opcode :=
  match codes with
  | [] => []
  | [mkOp Equal i1 i2 j1 j2] =>
      [mkOp Equal i1 (Nat.min i2 (i1 + n)) j1 (Nat.min j2 (j1 + n))]
  | c :: rest => c :: trim_last n rest
  end.

(** The grouping loop; [group] is the group being filled. *)
Fixpoint group_codes (n : nat) (codes : list opcode) (group : list opcode)
  : list (list opcode) :=
  match codes with
  | [] =>
      match group with
      | [] => []
      | [mkOp Equal _ _ _ _] => []
      | _ => [group]
      end
  | mkOp t i1 i2 j1 j2 :: codes' =>
      if tag_eqb t Equal && (n + n <? i2 - i1) then
        (group ++ [mkOp t i1 (Nat.min i2 (i1 + n)) j1 (Nat.min j2 (j1 + n))])
        :: group_codes n codes'
             [mkOp t (Nat.max i1 (i2 - n)) i2 (Nat.max j1 (j2 - n)) j2]
      else group_codes n codes' (group ++ [mkOp t i1 i2 j1 j2])
  end.

(** [SequenceMatcher(None, a, b).get_grouped_opcodes(n)] *)
Definition get_grouped_opcodes (a b : list string) (n : nat) : list (list opcode) :=
  let codes := match get_opcodes a b with
               | [] => [mkOp Equal 0 1 0 1]
               | cs => cs
               end in
  group_codes n (trim_last n (trim_first n codes)) [].

(** [_format_range_context(start, stop)] *)
Definition format_range_context (start stop : nat) : string :=
  let length := stop - start in
  let beginning := if length =? 0 then start else start + 1 in
  if length <=? 1 then str_of_nat beginning
  else str_of_nat beginning +:+ "," +:+ str_of_nat (beginning + length - 1).

Definition prefix_of (t : tag) : string :=
  match t with
  | Insert => "+ "
  | Delete => "- "
  | Replace => "! "
  | Equal => "  "
  end.

Definition has_tag (ts : list tag) (group : list opcode) : bool :=
  existsb (fun c => existsb (tag_eqb (op_tag c)) ts) group.

Definition first_i1 (group : list opcode) : nat :=
  match group with
  | c :: _ => op_i1 c
  | [] => 0
  end.
Definition first_j1 (group : list opcode) : nat :=
  match group with
  | c :: _ => op_j1 c
  | [] => 0
  end.
Definition last_i2 (group : list opcode) : nat :=
  match last group with
  | Some c => op_i2 c
  | None => 0
  end.
Definition last_j2 (group : list opcode) : nat :=
  match last group with
  | Some c => op_j2 c
  | None => 0
  end.

(** The part of the old file of one group, then the part of the new file. *)
Definition from_lines (a : list string) (group : list opcode) : list string :=
  if has_tag [Replace; Delete] group then
    flat_map (fun c =>
      if tag_eqb (op_tag c) Insert then []
      else map (fun line => prefix_of (op_tag c) +:+ line)
               (slice a (op_i1 c) (op_i2 c))) group
  else [].

Definition to_lines (b : list string) (group : list opcode) : list string :=
  if has_tag [Replace; Insert] group then
    flat_map (fun c =>
      if tag_eqb (op_tag c) Delete then []
      else map (fun line => prefix_of (op_tag c) +:+ line)
               (slice b (op_j1 c) (op_j2 c))) group
  else [].

Definition hunk_lines (a b : list string) (group : list opcode) : list string :=
  ["***************" +:+ nl;
   "*** " +:+ format_range_context (first_i1 group) (last_i2 group) +:+ " ****" +:+ nl]
  ++ from_lines a group
  ++ ["--- " +:+ format_range_context (first_j1 group) (last_j2 group) +:+ " ----" +:+ nl]
  ++ to_lines b group.

Definition header_lines (fromfile tofile : string) : list string :=
  ["*** " +:+ fromfile +:+ nl; "--- " +:+ tofile +:+ nl].

(** [context_diff(a, b, fromfile=..., tofile=..., n=...)], the generator run to
    its end. *)
Definition context_diff (a b : list string) (fromfile tofile : string) (n : nat)
  : list string :=
  match get_grouped_opcodes a b n with
  | [] => []
  | groups => header_lines fromfile tofile ++ flat_map (hunk_lines a b) groups
  end.

End Difflib.

(** ** The world the script acts on

    The file store maps a file to its text as Python's text layer presents it
    (decoding, encoding and newline translation are outside the model, as are
    directories and permissions: writing always succeeds). The console is the
    list of lines still to be typed. Every input/output action is recorded in
    [trace], in order. *)

Import PyPath.

Inductive event :=
  | EvRead (p : Path)
  | EvWrite (p : Path) (content : string)
  | EvStdout (text : string)
  | EvStdin (line : string).

Record World := mkWorld {
  files : gmap string string;
  stdin : list string;
  trace : list event
}.

Inductive exn :=
  | FileNotFoundError (p : Path)
  | ValueError
  | FormatFieldError
  | KeyError (key : string)
  | AssertionError
  | EOFError
  | Exception (msg : string).

Inductive result (A : Type) :=
  | Ok (x : A)
  | Raise (e : exn).
Arguments Ok {A} x.
Arguments Raise {A} e.

(** A computation runs on a world and leaves a world, also when it raises. *)
Definition M (A : Type) : Type := World -> result A * World.

Definition ret {A} (x : A) : M A := fun w => (Ok x, w).

Definition raise {A} (e : exn) : M A := fun w => (Raise e, w).

Definition bind {A B} (m : M A) (k : A -> M B) : M B := fun w =>
  match m w with
  | (Ok x, w') => k x w'
  | (Raise e, w') => (Raise e, w')
  end.

Notation "'do' x <- m ; k" := (bind m (fun x => k))
  (at level 10, x name, m at level 100, k at level 200).
Notation "m ;; k" := (bind m (fun _ => k))
  (at level 100, k at level 200, right associativity).

(** [for x in xs: body(x)] *)
Fixpoint for_each {A} (xs : list A) (body : A -> M unit) : M unit :=
  match xs with
  | [] => ret tt
  | x :: xs' => body x ;; for_each xs' body
  end.

Definition log (e : event) (w : World) : World :=
  mkWorld (files w) (stdin w) (trace w ++ [e]).

Definition is_write (e : event) : bool :=
  match e with
  | EvWrite _ _ => true
  | _ => false
  end.

Definition is_file_io (e : event) : bool :=
  match e with
  | EvRead _ | EvWrite _ _ => true
  | _ => false
  end.

(** The result of [str.format] as a computation. *)
Definition lift_format (r : PyStr.format_error + string) : M string :=
  match r with
  | inr s => ret s
  | inl PyStr.FormatValueError => raise ValueError
  | inl PyStr.FormatFieldError => raise FormatFieldError
  end.

Record VersionLocation := mkLocation { path : Path; template : string }.

Record PackageVersionInfo := mkPackage {
  name : string;
  current_version : string;
  locations : list VersionLocation
}.

Record Args := mkArgs {
  arg_dry : bool;
  arg_package : option string;
  arg_version : option string
}.

(** Truthiness of an optional [str] argument ([None] and the empty string are
    false). *)
Definition given (o : option string) : bool :=
  match o with
  | Some s => PyStr.truthy s
  | None => false
  end.

Section BumpVersions.

(** The file a path denotes (the operating system's resolution against the
    working directory). *)
Variable locate : Path -> string.

(** [ROOT = Path.cwd()], and the constants imported from [integrity] and
    [versions]. *)
Variable ROOT : Path.
Variables CHANGELOG PIPELINE : Path.
Variables JUPYTERLAB_LSP_VERSION JUPYTER_LSP_VERSION : string.
Variables JUPYTERLAB_VERSION REQUIRED_JUPYTERLAB : string.

(** [path.read_text(encoding=...)] *)
Definition read_text (p : Path) : M string := fun w =>
  match files w !! locate p with
  | Some text => (Ok text, log (EvRead p) w)
  | None => (Raise (FileNotFoundError p), log (EvRead p) w)
  end.

(** [path.write_text(content)], for a write that succeeds: the file then holds
    the text given. The call is made without [encoding=]: Python encodes the
    text with the locale's encoding and the platform's line ends, and it can
    raise after it has truncated the file. Encodings, line ends and failing
    writes are outside the model: a file is the text that a read returns, and
    every write succeeds. What the theorems say of a file after a write is
    said of its text, after a write that succeeded; what they say of a run
    that raises does not cover a write that fails. *)
Definition write_text (p : Path) (content : string) : M unit := fun w =>
  (Ok tt, mkWorld (<[locate p := content]> (files w)) (stdin w)
            (trace w ++ [EvWrite p content])).

(** [print(s)] *)
Definition print (s : string) : M unit := fun w =>
  (Ok tt, log (EvStdout (s +:+ nl)) w).

(** [input(prompt)]: the prompt is written, then a line is read. *)
Definition input (prompt : string) : M string := fun w =>
  let w1 := log (EvStdout prompt) w in
  match stdin w with
  | [] => (Raise EOFError, w1)
  | line :: rest => (Ok line, mkWorld (files w) rest (trace w1 ++ [EvStdin line]))
  end.

Definition META_PACKAGE : Path := rel ["packages"; "metapackage"; "package.json"].
Definition JUPYTERLAB_LSP_PACKAGE : Path :=
  rel ["packages"; "jupyterlab-lsp"; "package.json"].
Definition README : Path := rel ["README.md"].

Definition NPM_PACKAGE_VERSION_TEMPLATE : string :=
  dquote +:+ "version" +:+ dquote +:+ ": " +:+ dquote +:+ "{version}" +:+ dquote.

(** [path.relative_to(ROOT) if path.is_absolute() else path] *)
Definition relative_path (p : Path) : M Path :=
  if is_absolute p then
    match relative_to p ROOT with
    | Some r => ret r
    | None => raise ValueError
    end
  else ret p.

(** The dry-run branch of [replace_version]. *)
Definition preview (p : Path) (old_content new_content : string) : M unit :=
  let diff := Difflib.context_diff
                (PyLines.splitlines old_content)
                (PyLines.splitlines new_content)
                "current" "new (proposed update)" 4 in
  do shown <- relative_path p;
  print (nl +:+ "## Summary of changes proposed to " +:+ to_str shown) ;;
  print (PyStr.join nl diff +:+ nl).

Definition replace_version (p : Path) (tmpl old new : string) (dry : bool) : M unit :=
  do old_content <- read_text p;
  do old_text <- lift_format (PyStr.format tmpl "version" old);
  do new_text <- lift_format (PyStr.format tmpl "version" new);
  let new_content := PyStr.replace old_text new_text old_content in
  if dry then preview p old_content new_content
  else write_text p new_content.

(** The message of the changelog guard: an f-string, formatted once more. *)
Definition absent_message (new_version : string) : PyStr.format_error + string :=
  PyStr.format
    (new_version +:+ " is absent in CHANGELOG.md file." +:+
     " Please update the changelog first.")
    "new_version" new_version.

Definition change_version (self : PackageVersionInfo) (new_version : string)
    (dry : bool) : M unit :=
  do changelog <- read_text CHANGELOG;
  (if negb (PyStr.contains new_version changelog)
   then do msg <- lift_format (absent_message new_version); raise (Exception msg)
   else ret tt) ;;
  for_each (locations self) (fun location =>
    replace_version (path location) (template location)
      (current_version self) new_version dry).

Definition maybe_change_version (self : PackageVersionInfo) (dry : bool) : M unit :=
  print ("Current " +:+ name self +:+ " version is: " +:+ current_version self) ;;
  do typed <- input "Change it to [default=skip]: ";
  let version := PyStr.strip typed in
  if PyStr.truthy version then change_version self version dry
  else ret tt.

(** The registry: a [dict], kept in insertion order. *)
Definition PACKAGES : list (string * PackageVersionInfo) :=
  [ ("jupyter-lsp",
     mkPackage "jupyter-lsp (Python backend)" JUPYTER_LSP_VERSION
       [ mkLocation
           (rel ["python_packages"; "jupyter_lsp"; "jupyter_lsp"; "_version.py"])
           ("__version__ = " +:+ dquote +:+ "{version}" +:+ dquote);
         mkLocation PIPELINE "PY_JLSP_VERSION: {version}" ]);
    ("jupyterlab-lsp",
     mkPackage "jupyterlab-lsp (frontend package)" JUPYTERLAB_LSP_VERSION
       [ mkLocation JUPYTERLAB_LSP_PACKAGE NPM_PACKAGE_VERSION_TEMPLATE;
         mkLocation PIPELINE "JS_JLLSP_VERSION: {version}";
         mkLocation META_PACKAGE NPM_PACKAGE_VERSION_TEMPLATE ]);
    ("jupyterlab:exact",
     mkPackage "JupyterLab - exact" JUPYTERLAB_VERSION
       [ mkLocation JUPYTERLAB_LSP_PACKAGE
           (dquote +:+ "@jupyterlab/application" +:+ dquote +:+ ": "
            +:+ dquote +:+ "~{version}" +:+ dquote) ]);
    ("jupyterlab:range",
     mkPackage "JupyterLab - range" REQUIRED_JUPYTERLAB
       [ mkLocation (rel ["binder"; "environment.yml"]) "jupyterlab {version}";
         mkLocation README "jupyterlab {version}";
         mkLocation README "JupyterLab {version}" ]) ].

(** [d[key]] and [d.values()] on a registry; a missing key is a [KeyError]. *)
Fixpoint getitem (d : list (string * PackageVersionInfo)) (key : string)
  : M PackageVersionInfo :=
  match d with
  | [] => raise (KeyError key)
  | (k, v) :: d' => if String.eqb k key then ret v else getitem d' key
  end.

Definition values (d : list (string * PackageVersionInfo)) : list PackageVersionInfo :=
  map snd d.

(** [update_versions], over a registry [d]. *)
Definition update_versions_in (d : list (string * PackageVersionInfo)) (dry : bool)
  : M unit :=
  for_each (values d) (fun package => maybe_change_version package dry).

Definition update_versions (dry : bool) : M unit := update_versions_in PACKAGES dry.

(** [assert cond] *)
Definition assert (cond : bool) : M unit :=
  if cond then ret tt else raise AssertionError.

(** The body of [if __name__ == "__main__"], after argument parsing, over a
    registry [d]. *)
Definition main_in (d : list (string * PackageVersionInfo)) (args : Args) : M unit :=
  (if given (arg_package args) then assert (given (arg_version args)) else ret tt) ;;
  (if given (arg_version args) then assert (given (arg_package args)) else ret tt) ;;
  if given (arg_package args) then
    do package <- getitem d (default EmptyString (arg_package args));
    change_version package (default EmptyString (arg_version args)) (arg_dry args)
  else update_versions_in d (arg_dry args).

Definition main (args : Args) : M unit := main_in PACKAGES args.

End BumpVersions.

(** ** Notions used to state the properties *)

(** [s.find(sub)]: the position of the leftmost occurrence. *)
Fixpoint str_find (sub s : string) : option nat :=
  if PyStr.startswith sub s then Some 0
  else match s with
       | EmptyString => None
       | String _ s' => S <$> str_find sub s'
       end.

(** [replaced_all old new s r]: [r] is [s] with every occurrence of [old]
    replaced by [new], the occurrences being taken from left to right, each
    search starting where the previous occurrence ended. *)
Inductive replaced_all (old new : string) : string -> string -> Prop :=
  | replaced_none s :
      str_find old s = None ->
      replaced_all old new s s
  | replaced_next pre rest r :
      str_find old (pre +:+ old +:+ rest) = Some (String.length pre) ->
      replaced_all old new rest r ->
      replaced_all old new (pre +:+ old +:+ rest) (pre +:+ new +:+ r).

(** The characters of a text, each as a text of its own. *)
Fixpoint chars (s : string) : list string :=
  match s with
  | EmptyString => []
  | String c s' => String c EmptyString :: chars s'
  end.

(** The empty text occurs at every position of [s]: before each of its
    characters, and at its end. [replaced_everywhere new s] is [s] with each
    of these occurrences replaced by [new]: the pieces that the occurrences
    separate (nothing, each character, nothing), joined by [new]. *)
Definition replaced_everywhere (new s : string) : string :=
  PyStr.join new (EmptyString :: chars s ++ [EmptyString]).

Definition first_char (s : string) : option ascii :=
  match s with
  | EmptyString => None
  | String c _ => Some c
  end.

Fixpoint last_char (s : string) : option ascii :=
  match s with
  | EmptyString => None
  | String c EmptyString => Some c
  | String _ s' => last_char s'
  end.

Fixpoint all_space (s : string) : bool :=
  match s with
  | EmptyString => true
  | String c s' => PyStr.is_space c && all_space s'
  end.

Definition not_space (o : option ascii) : bool :=
  match o with
  | Some c => negb (PyStr.is_space c)
  | None => true
  end.

(** The path is relative, or lies below [root]: the header of a preview can
    name it. *)
Definition in_tree (root p : Path) : bool :=
  negb (is_absolute p) ||
  match relative_to p root with
  | Some _ => true
  | None => false
  end.

(** [key in d] *)
Definition has_key (d : list (string * PackageVersionInfo)) (key : string) : bool :=
  existsb (String.eqb key) (map fst d).





(** No brace occurs in [s]. *)
Fixpoint brace_free (s : string) : bool :=
  match s with
  | EmptyString => true
  | String c s' =>
      negb (Ascii.eqb c PyStr.lbrace) && negb (Ascii.eqb c PyStr.rbrace)
      && brace_free s'
  end.

(** What [maybe_change_version] prints before it prompts. *)
Definition banner (P : PackageVersionInfo) : string :=
  "Current " +:+ name P +:+ " version is: " +:+ current_version P.

(** The world once the banner and the prompt are written and the line [typed]
    is read, [rest] being the lines still to come. *)
Definition after_prompt (P : PackageVersionInfo) (w : World) (typed : string)
    (rest : list string) : World :=
  mkWorld (files w) rest
    (trace w ++ [EvStdout (banner P +:+ nl);
                 EvStdout "Change it to [default=skip]: ";
                 EvStdin typed]).

(** Some location of [locs] denotes the file [f]. *)
Definition targets (locate : Path -> string) (f : string)
    (locs : list VersionLocation) : bool :=
  existsb (fun l => String.eqb (locate (path l)) f) locs.



(** The text of the file a path denotes contains [sub]. *)
Definition file_contains (locate : Path -> string) (w : World) (p : Path)
    (sub : string) : bool :=
  match files w !! locate p with
  | Some text => PyStr.contains sub text
  | None => false
  end.

(** [quiet m]: [m] leaves every file as it is, and adds no write to the
    trace. *)
Definition quiet {A} (m : M A) : Prop :=
  forall w,
    files (snd (m w)) = files w /\
    exists evs, trace (snd (m w)) = trace w ++ evs /\ existsb is_write evs = false.


(** Measures for the queue loop of the matcher: a best match within the rows
    seen so far, lengths no larger than [c], a queue entry with its bounds in
    order, and the weight of a queue. *)
Definition good (alo bound : nat) (bst : Difflib.best) : Prop :=
  alo <= Difflib.besti bst /\ Difflib.besti bst + Difflib.bestsize bst <= bound.

Definition small (m : gmap nat nat) (c : nat) : Prop :=
  forall j v, m !! j = Some v -> v <= c.

Definition ordered (entry : nat * nat * nat * nat) : Prop :=
  let '(alo, ahi, _, _) := entry in alo <= ahi.

Fixpoint weight (queue : list (nat * nat * nat * nat)) : nat :=
  match queue with
  | [] => 0
  | (alo, ahi, _, _) :: queue' => 2 * (ahi - alo) + 1 + weight queue'
  end.

(** ** Further notions, for the properties of the drivers and of the loop *)

(** The path a file event is about. *)
Definition event_path (e : event) : option Path :=
  match e with
  | EvRead p | EvWrite p _ => Some p
  | _ => None
  end.

Definition is_stdin (e : event) : bool :=
  match e with
  | EvStdin _ => true
  | _ => false
  end.

Definition not_stdin (e : event) : bool := negb (is_stdin e).

(** [confined allowed m]: [m] leaves the pending input as it is and adds to
    the trace only events that [allowed] accepts. *)
Definition confined {A} (allowed : event -> bool) (m : M A) : Prop :=
  forall w,
    stdin (snd (m w)) = stdin w /\
    exists evs, trace (snd (m w)) = trace w ++ evs /\ forallb allowed evs = true.


(** What a location does to the text of the file [f]: nothing when it denotes
    another file, else the replacement of its rendered old text by its
    rendered new text. *)
Definition apply_location (locate : Path -> string) (f old new : string)
    (text : string) (l : VersionLocation) : string :=
  if String.eqb (locate (path l)) f then
    match PyStr.format (template l) "version" old,
          PyStr.format (template l) "version" new with
    | inr old_text, inr new_text => PyStr.replace old_text new_text text
    | _, _ => text
    end
  else text.

(** Two worlds hold the same files (whatever their texts). *)
Definition same_files (w1 w2 : World) : Prop :=
  forall f, is_Some (files w1 !! f) <-> is_Some (files w2 !! f).

(** The kind and the path of the file events of a run. *)
Definition file_step (e : event) : option (bool * Path) :=
  match e with
  | EvRead p => Some (false, p)
  | EvWrite p _ => Some (true, p)
  | _ => None
  end.

(** ** Notions for the matcher run on two equal sequences *)







(** ** A sample checkout, for the worked examples *)

Module Sample.

Definition ROOT : Path := mkPath true ["home"; "dev"; "jupyterlab-lsp"].

(** A path denotes the file of that name, relative names being taken from
    [ROOT]. *)
Definition locate (p : Path) : string :=
  if is_absolute p then to_str p
  else to_str (mkPath true (parts ROOT ++ parts p)).

Definition CHANGELOG : Path :=
  mkPath true ["home"; "dev"; "jupyterlab-lsp"; "CHANGELOG.md"].
Definition PIPELINE : Path :=
  mkPath true ["home"; "dev"; "jupyterlab-lsp"; "ci"; "job.test.yml"].
Definition VERSION_PY : Path :=
  rel ["python_packages"; "jupyter_lsp"; "jupyter_lsp"; "_version.py"].

Definition registry (jupyter_lsp_version : string)
  : list (string * PackageVersionInfo) :=
  PACKAGES PIPELINE "3.0.0" jupyter_lsp_version "3.0.0" ">=3.0.0,<4.0.0a0".

(** The backend package of the registry, at a given current version. *)
Definition backend (jupyter_lsp_version : string) : PackageVersionInfo :=
  mkPackage "jupyter-lsp (Python backend)" jupyter_lsp_version
    [ mkLocation VERSION_PY ("__version__ = " +:+ dquote +:+ "{version}" +:+ dquote);
      mkLocation PIPELINE "PY_JLSP_VERSION: {version}" ].

(** A checkout whose backend is at [version], with a changelog. *)
Definition checkout (version changelog : string) (typed : list string) : World :=
  mkWorld
    (<[locate VERSION_PY := "__version__ = " +:+ dquote +:+ version +:+ dquote +:+ nl]>
     (<[locate PIPELINE := "  PY_JLSP_VERSION: " +:+ version +:+ nl]>
      (<[locate CHANGELOG := changelog]> ∅)))
    typed [].

(** A package with two locations in one file. *)
Definition NOTES : Path := rel ["NOTES.txt"].
Definition twice : PackageVersionInfo :=
  mkPackage "notes" "1" [ mkLocation NOTES "a{version}"; mkLocation NOTES "{version}" ].
Definition notes (text changelog : string) : World :=
  mkWorld (<[locate NOTES := text]> (<[locate CHANGELOG := changelog]> ∅)) [] [].

End Sample.



(** ** Further sample worlds: a checkout with a file missing, a path outside
    the working tree *)

Module Cases.

(** A checkout without its changelog. *)
Definition no_changelog (version : string) : World :=
  mkWorld
    (<[Sample.locate Sample.VERSION_PY :=
         "__version__ = " +:+ dquote +:+ version +:+ dquote +:+ nl]>
     (<[Sample.locate Sample.PIPELINE := "  PY_JLSP_VERSION: " +:+ version +:+ nl]> ∅))
    [] [].

(** A checkout without its pipeline file. *)
Definition no_pipeline (version changelog : string) : World :=
  mkWorld
    (<[Sample.locate Sample.VERSION_PY :=
         "__version__ = " +:+ dquote +:+ version +:+ dquote +:+ nl]>
     (<[Sample.locate Sample.CHANGELOG := changelog]> ∅))
    [] [].

(** A file outside the working tree. *)
Definition OUTSIDE : Path := mkPath true ["etc"; "release"].
Definition with_outside (text : string) : World :=
  mkWorld (<[Sample.locate OUTSIDE := text]> ∅) [] [].

End Cases.

(** * Facts about the string primitives *)

Module PyStrFacts.
Import PyStr.

#[local] Arguments String.append !_ _ / : simpl nomatch.

Lemma app_empty_r (s : string) : s +:+ EmptyString = s.
Proof. induction s as [|c s IH]; simpl; [reflexivity | now rewrite IH]. Qed.

Lemma app_assoc (s t u : string) : (s +:+ t) +:+ u = s +:+ t +:+ u.
Proof. induction s as [|c s IH]; simpl; [reflexivity | now rewrite IH]. Qed.

Lemma length_app (s t : string) :
  String.length (s +:+ t) = String.length s + String.length t.
Proof. induction s as [|c s IH]; simpl; [reflexivity | now rewrite IH]. Qed.

Lemma app_inv_head (s t u : string) : s +:+ t = s +:+ u -> t = u.
Proof. induction s as [|c s IH]; simpl; intros H; [assumption | injection H; auto]. Qed.

Lemma app_inv_length (s s' t t' : string) :
  s +:+ t = s' +:+ t' -> String.length s = String.length s' -> s = s' /\ t = t'.
Proof.
  revert s'. induction s as [|c s IH]; intros [|c' s'] H L; simpl in *;
    try discriminate; [auto|].
  injection H as -> H. injection L as L. destruct (IH _ H L) as [-> ->]. auto.
Qed.

Lemma startswith_empty (s : string) : startswith EmptyString s = true.
Proof. destruct s; reflexivity. Qed.

Lemma startswith_app (p r : string) : startswith p (p +:+ r) = true.
Proof.
  unfold startswith. induction p as [|c p IH]; simpl.
  - destruct r; reflexivity.
  - destruct (ascii_dec c c); [assumption | congruence].
Qed.

Lemma startswith_inv (p s : string) :
  startswith p s = true -> exists r, s = p +:+ r.
Proof.
  unfold startswith. revert s. induction p as [|c p IH]; intros s H.
  - exists s. reflexivity.
  - destruct s as [|d s]; simpl in H; [discriminate|].
    destruct (ascii_dec c d) as [->|]; [|discriminate].
    destruct (IH _ H) as [r ->]. exists r. reflexivity.
Qed.

Lemma startswith_cons (c d : ascii) (p s : string) :
  startswith (String c p) (String d s) = true -> c = d /\ startswith p s = true.
Proof.
  unfold startswith. simpl. destruct (ascii_dec c d); [auto | discriminate].
Qed.

Lemma contains_startswith (sub s : string) :
  startswith sub s = true -> contains sub s = true.
Proof. intros H. destruct s; cbn [contains]; rewrite H; reflexivity. Qed.

Lemma contains_iff (sub s : string) :
  contains sub s = true <-> exists u v, s = u +:+ sub +:+ v.
Proof.
  split.
  - induction s as [|c s IH]; cbn [contains]; intros H.
    + rewrite orb_false_r in H. apply startswith_inv in H as [r ->].
      exists EmptyString, r. reflexivity.
    + apply orb_true_iff in H as [H|H].
      * apply startswith_inv in H as [r ->]. exists EmptyString, r. reflexivity.
      * destruct (IH H) as (u & v & ->). exists (String c u), v. reflexivity.
  - intros (u & v & ->). induction u as [|c u IH].
    + change (EmptyString +:+ sub +:+ v) with (sub +:+ v).
      apply contains_startswith, startswith_app.
    + change (String c u +:+ sub +:+ v) with (String c (u +:+ sub +:+ v)).
      cbn [contains]. rewrite IH. apply orb_true_r.
Qed.

Lemma occurrences_zero (sub s : string) :
  occurrences sub s = 0 <-> contains sub s = false.
Proof.
  induction s as [|c s IH]; cbn [occurrences contains].
  - destruct (startswith sub EmptyString); simpl; split; intros; (discriminate || reflexivity || lia).
  - destruct (startswith sub (String c s)); simpl.
    + split; intros; (discriminate || lia).
    + exact IH.
Qed.

Lemma find_none (sub s : string) : str_find sub s = None <-> contains sub s = false.
Proof.
  induction s as [|c s IH]; cbn [str_find contains].
  - destruct (startswith sub EmptyString); simpl; split; intros; (discriminate || reflexivity).
  - destruct (startswith sub (String c s)); simpl.
    + split; intros; discriminate.
    + rewrite <- IH. destruct (str_find sub s); simpl; split; intros; (discriminate || reflexivity).
Qed.

Lemma find_some (sub s : string) (i : nat) :
  str_find sub s = Some i ->
  exists pre rest, s = pre +:+ sub +:+ rest /\ String.length pre = i.
Proof.
  revert i. induction s as [|c s IH]; intros i; cbn [str_find].
  - destruct (startswith sub EmptyString) eqn:E; [|discriminate].
    intros [= <-]. apply startswith_inv in E as [r E].
    exists EmptyString, r. auto.
  - destruct (startswith sub (String c s)) eqn:E.
    + intros [= <-]. apply startswith_inv in E as [r E].
      exists EmptyString, r. auto.
    + destruct (str_find sub s) as [i'|]; [|discriminate]. intros [= <-].
      destruct (IH _ eq_refl) as (pre & rest & -> & L).
      exists (String c pre), rest. simpl. auto.
Qed.

Lemma replace_scan_skip (old new u s : string) :
  replace_scan old new (String.length u) (u +:+ s) = replace_scan old new 0 s.
Proof. induction u as [|c u IH]; simpl; [reflexivity | exact IH]. Qed.

Lemma replace_scan_hit (old new s : string) :
  old <> EmptyString ->
  replace_scan old new 0 (old +:+ s) = new +:+ replace_scan old new 0 s.
Proof.
  intros Hne. destruct old as [|c o]; [congruence|].
  change (String c o +:+ s) with (String c (o +:+ s)).
  cbn [replace_scan].
  change (String c (o +:+ s)) with (String c o +:+ s).
  rewrite startswith_app. f_equal.
  cbn [String.length]. rewrite Nat.sub_succ, Nat.sub_0_r.
  apply replace_scan_skip.
Qed.

Lemma replace_scan_miss (old new : string) (c : ascii) (s : string) :
  startswith old (String c s) = false ->
  replace_scan old new 0 (String c s) = String c (replace_scan old new 0 s).
Proof. intros H. cbn [replace_scan]. rewrite H. reflexivity. Qed.

Lemma replace_scan_absent (old new s : string) :
  contains old s = false -> replace_scan old new 0 s = s.
Proof.
  induction s as [|c s IH]; cbn [contains]; intros H; [reflexivity|].
  apply orb_false_iff in H as [H1 H2].
  rewrite replace_scan_miss by assumption. now rewrite IH.
Qed.

Lemma replace_scan_first (old new s : string) (i : nat) :
  old <> EmptyString ->
  str_find old s = Some i ->
  exists pre rest,
    s = pre +:+ old +:+ rest /\ String.length pre = i /\
    replace_scan old new 0 s = pre +:+ new +:+ replace_scan old new 0 rest.
Proof.
  intros Hne. revert i. induction s as [|c s IH]; intros i; cbn [str_find].
  - destruct (startswith old EmptyString) eqn:E; [|discriminate].
    apply startswith_inv in E as [r E]. destruct old; [congruence | discriminate].
  - destruct (startswith old (String c s)) eqn:E.
    + intros [= <-]. apply startswith_inv in E as [r E].
      exists EmptyString, r. rewrite E. split; [reflexivity|]. split; [reflexivity|].
      apply replace_scan_hit; assumption.
    + destruct (str_find old s) as [i'|]; [|discriminate]. intros [= <-].
      destruct (IH _ eq_refl) as (pre & rest & Hs & L & R).
      exists (String c pre), rest. rewrite replace_scan_miss by assumption.
      rewrite R. subst s. simpl. auto.
Qed.

(** The scan replaces every occurrence, from left to right. *)
Lemma replace_scan_all (old new s : string) :
  old <> EmptyString -> replaced_all old new s (replace_scan old new 0 s).
Proof.
  intros Hne.
  remember (String.length s) as n eqn:Hn.
  revert s Hn. induction n as [n IH] using lt_wf_ind. intros s Hn.
  destruct (str_find old s) as [i|] eqn:F.
  - destruct (replace_scan_first old new s i Hne F) as (pre & rest & Hs & L & R).
    rewrite R. subst s i. apply replaced_next; [assumption|].
    apply (IH (String.length rest)); [|reflexivity].
    rewrite Hn, !length_app. destruct old; [congruence|]. simpl. lia.
  - rewrite replace_scan_absent by (apply find_none; assumption).
    apply replaced_none. assumption.
Qed.

(** The relation determines its result. *)
Lemma replaced_all_functional (old new s r1 r2 : string) :
  replaced_all old new s r1 -> replaced_all old new s r2 -> r1 = r2.
Proof.
  intros H1. revert r2. induction H1 as [s F|pre rest r F _ IH]; intros r2 H2.
  - inversion H2 as [s' F' | pre' rest' r' F' H' E]; subst; [reflexivity|].
    rewrite F in F'. discriminate.
  - inversion H2 as [s' F' | pre' rest' r' F' H' E]; subst.
    + rewrite F in F'. discriminate.
    + rewrite <- E in F. rewrite F' in F. injection F as L.
      destruct (app_inv_length _ _ _ _ E L) as [-> E'].
      apply app_inv_head in E'. subst rest'.
      f_equal. f_equal. apply IH. assumption.
Qed.

Lemma occurrences_cons (sub : string) (c : ascii) (s : string) :
  occurrences sub s <= occurrences sub (String c s).
Proof. cbn [occurrences]. lia. Qed.

Lemma occurrences_app (sub u s : string) :
  occurrences sub s <= occurrences sub (u +:+ s).
Proof.
  induction u as [|c u IH]; [simpl; lia|].
  change (String c u +:+ s) with (String c (u +:+ s)).
  pose proof (occurrences_cons sub c (u +:+ s)). lia.
Qed.

Lemma occurrences_hit (sub rest : string) :
  sub <> EmptyString ->
  1 + occurrences sub rest <= occurrences sub (sub +:+ rest).
Proof.
  intros Hne. destruct sub as [|c o]; [congruence|].
  change (String c o +:+ rest) with (String c (o +:+ rest)).
  cbn [occurrences].
  change (String c (o +:+ rest)) with (String c o +:+ rest).
  rewrite startswith_app. pose proof (occurrences_app (String c o) o rest). lia.
Qed.

Lemma occurrences_empty (s : string) :
  occurrences EmptyString s = S (String.length s).
Proof.
  induction s as [|c s IH]; [reflexivity|].
  cbn [occurrences]. rewrite IH, startswith_empty. reflexivity.
Qed.

(** Replacing a string that occurs exactly once. *)
Lemma replace_unique (old new s : string) :
  occurrences old s = 1 ->
  exists pre post,
    s = pre +:+ old +:+ post /\ replace old new s = pre +:+ new +:+ post.
Proof.
  intros H. destruct old as [|c o].
  - rewrite occurrences_empty in H. destruct s; [|simpl in H; lia].
    exists EmptyString, EmptyString. split; [reflexivity|].
    cbn. now rewrite app_empty_r.
  - unfold replace. set (old := String c o) in *.
    assert (Hne : old <> EmptyString) by discriminate.
    destruct (str_find old s) as [i|] eqn:F.
    + destruct (replace_scan_first old new s i Hne F) as (pre & post & Hs & L & R).
      exists pre, post. split; [assumption|]. rewrite R. do 2 f_equal.
      apply replace_scan_absent, occurrences_zero.
      pose proof (occurrences_hit old post Hne).
      pose proof (occurrences_app old pre (old +:+ post)).
      rewrite <- Hs in *. lia.
    + apply find_none, occurrences_zero in F. lia.
Qed.

Lemma replace_absent (old new s : string) :
  contains old s = false -> replace old new s = s.
Proof.
  intros H. destruct old as [|c o].
  - destruct s; cbn [contains] in H; rewrite startswith_empty in H; discriminate.
  - apply replace_scan_absent. assumption.
Qed.

(** Whether [format] succeeds depends on the template only, not on the value. *)
Lemma format_scan_any_value (kw v v' : string) (n : nat) :
  forall (s : string) (st : format_state) (x : string),
    String.length s <= n ->
    format_scan kw v st s = inr x ->
    exists y, format_scan kw v' st s = inr y.
Proof.
  induction n as [n IH] using lt_wf_ind. intros s st x Hn.
  destruct s as [|c s]; cbn [format_scan].
  - destruct st; [eauto | discriminate].
  - cbn [String.length] in Hn. destruct st as [|fname].
    + destruct (Ascii.eqb c lbrace).
      * destruct s as [|c' s']; [discriminate|]. cbn [String.length] in Hn.
        destruct (Ascii.eqb c' lbrace).
        -- destruct (format_scan kw v Literal s') as [e|r] eqn:E; [discriminate|].
           intros _. destruct (IH (String.length s') ltac:(lia) s' Literal r ltac:(lia) E) as [y ->].
           eauto.
        -- intros E. apply (IH (S (String.length s')) ltac:(lia) _ _ x); [simpl; lia | exact E].
      * destruct (Ascii.eqb c rbrace).
        -- destruct s as [|c' s']; [discriminate|]. cbn [String.length] in Hn.
           destruct (Ascii.eqb c' rbrace); [|discriminate].
           destruct (format_scan kw v Literal s') as [e|r] eqn:E; [discriminate|].
           intros _. destruct (IH (String.length s') ltac:(lia) s' Literal r ltac:(lia) E) as [y ->].
           eauto.
        -- destruct (format_scan kw v Literal s) as [e|r] eqn:E; [discriminate|].
           intros _. destruct (IH (String.length s) ltac:(lia) s Literal r ltac:(lia) E) as [y ->].
           eauto.
    + destruct (Ascii.eqb c rbrace).
      * destruct (String.eqb fname kw); [|discriminate].
        destruct (format_scan kw v Literal s) as [e|r] eqn:E; [discriminate|].
        intros _. destruct (IH (String.length s) ltac:(lia) s Literal r ltac:(lia) E) as [y ->].
        eauto.
      * intros E. apply (IH (String.length s) ltac:(lia) _ _ x); [lia | exact E].
Qed.

Lemma format_any_value (tmpl kw v v' x : string) :
  format tmpl kw v = inr x -> exists y, format tmpl kw v' = inr y.
Proof. apply (format_scan_any_value kw v v' (String.length tmpl)). lia. Qed.




Lemma lstrip_all_space (s : string) : all_space s = true -> lstrip s = EmptyString.
Proof.
  induction s as [|c s IH]; cbn [all_space lstrip]; [reflexivity|].
  intros H. apply andb_true_iff in H as [-> H]. auto.
Qed.

Lemma lstrip_empty_inv (s : string) : all_space (lstrip s) = true -> all_space s = true.
Proof.
  induction s as [|c s IH]; cbn [all_space lstrip]; [reflexivity|].
  destruct (is_space c) eqn:E; [exact IH|]. cbn [all_space]. now rewrite E.
Qed.

Lemma rstrip_empty_inv (s : string) : rstrip s = EmptyString -> all_space s = true.
Proof.
  induction s as [|c s IH]; cbn [all_space rstrip]; [reflexivity|].
  destruct (rstrip s); [|discriminate].
  destruct (is_space c); [|discriminate]. intros _. auto.
Qed.


(** [strip] returns the empty string exactly on whitespace-only input. *)
Lemma strip_empty_iff (s : string) : strip s = EmptyString <-> all_space s = true.
Proof.
  unfold strip. split.
  - intros H. apply lstrip_empty_inv, rstrip_empty_inv. assumption.
  - intros H. rewrite lstrip_all_space by assumption. reflexivity.
Qed.

Lemma truthy_strip (s : string) : truthy (strip s) = negb (all_space s).
Proof.
  destruct (all_space s) eqn:E.
  - apply strip_empty_iff in E. now rewrite E.
  - destruct (strip s) eqn:S; [|reflexivity].
    apply strip_empty_iff in S. congruence.
Qed.

(** ** More about [replace], [format] and [strip] *)

Lemma replace_interleave_empty (s : string) : replace_interleave EmptyString s = s.
Proof. induction s as [|c s IH]; simpl; [reflexivity | now rewrite IH]. Qed.

Lemma replace_scan_same (old s : string) :
  old <> EmptyString -> replace_scan old old 0 s = s.
Proof.
  intros Hne. remember (String.length s) as n eqn:Hn.
  revert s Hn. induction n as [n IH] using lt_wf_ind. intros s Hn.
  destruct (str_find old s) as [i|] eqn:F.
  - destruct (replace_scan_first old old s i Hne F) as (pre & rest & Hs & L & R).
    rewrite R, (IH (String.length rest)); [symmetry; exact Hs | | reflexivity].
    rewrite Hn, Hs, !length_app. destruct old; [congruence|]. simpl. lia.
  - apply replace_scan_absent, find_none. assumption.
Qed.

(** The rule of [replace] for the empty pattern puts the new text at every
    position. *)
Lemma replace_interleave_everywhere (new s : string) :
  replace_interleave new s = replaced_everywhere new s.
Proof.
  unfold replaced_everywhere. induction s as [|c s IH].
  - cbn [chars app join replace_interleave]. simpl. now rewrite app_empty_r.
  - cbn [chars app replace_interleave]. rewrite IH.
    destruct (chars s ++ [EmptyString]) as [|q qs] eqn:E.
    + destruct (chars s); discriminate.
    + cbn [join]. simpl. reflexivity.
Qed.

(** A text has one position more than it has characters. *)
Lemma length_replaced_everywhere (new s : string) :
  String.length (replaced_everywhere new s)
  = String.length s + (String.length s + 1) * String.length new.
Proof.
  rewrite <- replace_interleave_everywhere.
  induction s as [|c s IH]; cbn [replace_interleave String.length].
  - lia.
  - rewrite length_app. cbn [String.length]. rewrite IH. lia.
Qed.

(** Replacing a text by itself changes nothing. *)
Lemma replace_same (old s : string) : replace old old s = s.
Proof.
  destruct old as [|c o]; [apply replace_interleave_empty|].
  apply replace_scan_same. discriminate.
Qed.


Lemma format_scan_field (kw value suf : string) :
  brace_free suf = true ->
  forall (name seen : string),
    brace_free name = true ->
    seen +:+ name = kw ->
    format_scan kw value (Field seen) (name +:+ String rbrace suf)
    = inr (value +:+ suf).
Proof.
  intros Hs name. induction name as [|c name IH]; intros seen Hn Hk.
  - rewrite app_empty_r in Hk. subst seen. cbn [String.append format_scan].
    rewrite Ascii.eqb_refl, String.eqb_refl.
    change (format_scan kw value Literal suf) with (format suf kw value).
    assert (E : format suf kw value = inr suf).
    { unfold format. clear -Hs. induction suf as [|d suf IHs]; [reflexivity|].
      cbn [brace_free] in Hs. apply andb_true_iff in Hs as [H1 H2].
      apply andb_true_iff in H1 as [Hl Hr]. apply negb_true_iff in Hl, Hr.
      cbn [format_scan]. rewrite Hl, Hr, (IHs H2). reflexivity. }
    rewrite E. reflexivity.
  - cbn [brace_free] in Hn. apply andb_true_iff in Hn as [H1 H2].
    apply andb_true_iff in H1 as [_ Hr]. apply negb_true_iff in Hr.
    change (String c name +:+ String rbrace suf)
      with (String c (name +:+ String rbrace suf)).
    cbn [format_scan]. rewrite Hr. apply IH; [assumption|].
    rewrite app_assoc. exact Hk.
Qed.

(** A template made of a text, one slot and a text renders by putting the
    value in the slot; the value itself may hold braces. *)
Lemma format_slot (kw value pre suf : string) :
  brace_free pre = true ->
  brace_free kw = true ->
  brace_free suf = true ->
  format (pre +:+ String lbrace (kw +:+ String rbrace suf)) kw value
  = inr (pre +:+ value +:+ suf).
Proof.
  intros Hp Hk Hs. unfold format. induction pre as [|c pre IH].
  - cbn [String.append format_scan]. rewrite Ascii.eqb_refl.
    destruct kw as [|k kw'].
    + cbn [String.append]. cbn [format_scan]. 
      replace (Ascii.eqb rbrace lbrace) with false by reflexivity.
      apply (format_scan_field EmptyString value suf Hs EmptyString EmptyString);
        reflexivity.
    + change (String k kw' +:+ String rbrace suf)
        with (String k (kw' +:+ String rbrace suf)).
      cbn [brace_free] in Hk. apply andb_true_iff in Hk as [H1 H2].
      apply andb_true_iff in H1 as [Hl Hr]. apply negb_true_iff in Hl.
      rewrite Hl.
      change (String k (kw' +:+ String rbrace suf))
        with (String k kw' +:+ String rbrace suf).
      apply (format_scan_field (String k kw') value suf Hs (String k kw') EmptyString).
      * cbn [brace_free]. rewrite Hl, H2. cbn. apply negb_true_iff in Hr.
        now rewrite Hr.
      * reflexivity.
  - cbn [brace_free] in Hp. apply andb_true_iff in Hp as [H1 H2].
    apply andb_true_iff in H1 as [Hl Hr]. apply negb_true_iff in Hl, Hr.
    change (String c pre +:+ String lbrace (kw +:+ String rbrace suf))
      with (String c (pre +:+ String lbrace (kw +:+ String rbrace suf))).
    cbn [format_scan]. rewrite Hl, Hr, (IH H2). reflexivity.
Qed.

Lemma lstrip_fixed (s : string) :
  not_space (first_char s) = true -> lstrip s = s.
Proof.
  destruct s as [|c s]; [reflexivity|]. cbn [first_char not_space lstrip].
  intros H. apply negb_true_iff in H. now rewrite H.
Qed.

Lemma rstrip_fixed (s : string) :
  not_space (last_char s) = true -> rstrip s = s.
Proof.
  induction s as [|c s IH]; [reflexivity|].
  destruct s as [|d s].
  - cbn [last_char not_space rstrip]. intros H. apply negb_true_iff in H.
    now rewrite H.
  - intros H. change (last_char (String c (String d s)))
      with (last_char (String d s)) in H.
    cbn [rstrip] in *. rewrite (IH H). reflexivity.
Qed.

(** A text without whitespace at either end is left as it is by [strip]. *)
Lemma strip_fixed (s : string) :
  not_space (first_char s) = true -> not_space (last_char s) = true ->
  strip s = s.
Proof.
  intros H1 H2. unfold strip. rewrite (lstrip_fixed _ H1). apply rstrip_fixed, H2.
Qed.



End PyStrFacts.

(** * Facts about the diff formatter *)

Module DifflibFacts.
Import Difflib.












(** ** The queue loop of the matcher runs to its end *)

Section Fuel.

Variables a b : list string.

Lemma match_row_bounds (alo blo bhi i : nat) (j2len : gmap nat nat)
    (js : list nat) (newj2len : gmap nat nat) (bst : best) :
  alo <= i ->
  small j2len (i - alo) ->
  small newj2len (i + 1 - alo) ->
  good alo (i + 1) bst ->
  small (fst (match_row blo bhi i j2len js newj2len bst)) (i + 1 - alo) /\
  good alo (i + 1) (snd (match_row blo bhi i j2len js newj2len bst)).
Proof.
  intros Hi Hold. revert newj2len bst.
  induction js as [|j js IH]; intros newj2len bst Hnew Hb; cbn [match_row].
  - auto.
  - destruct (j <? blo); [auto|]. destruct (bhi <=? j); [auto|].
    set (k := _ + 1).
    assert (Hk : k <= i + 1 - alo).
    { subst k. destruct j as [|j']; [lia|].
      destruct (j2len !! j') as [v|] eqn:E; cbn [default]; [|simpl; lia].
      specialize (Hold _ _ E). simpl. lia. }
    apply IH.
    + intros j0 v. rewrite lookup_insert. destruct (decide (j = j0)).
      * intros [= <-]. exact Hk.
      * apply Hnew.
    + destruct (bestsize bst <? k); [|assumption].
      unfold good. cbn [besti bestsize]. lia.
Qed.

Lemma match_rows_bounds (alo blo bhi : nat) (len : nat) :
  forall (start : nat) (j2len : gmap nat nat) (bst : best),
    alo <= start ->
    small j2len (start - alo) ->
    good alo start bst ->
    good alo (start + len) (match_rows a b blo bhi (seq start len) j2len bst).
Proof.
  induction len as [|len IH]; intros start j2len bst Hs Hj Hb; cbn [seq match_rows].
  - rewrite Nat.add_0_r. assumption.
  - set (js := match a !! start with Some elt => b2j b elt | None => [] end).
    pose proof (match_row_bounds alo blo bhi start j2len js ∅ bst Hs Hj) as R.
    destruct (match_row blo bhi start j2len js ∅ bst) as [m' bst'].
    cbn [fst snd] in R. destruct R as [R1 R2].
    + intros j v. rewrite lookup_empty. discriminate.
    + unfold good in *. lia.
    + replace (start + S len) with (S start + len) by lia.
      apply IH; [lia | |].
      * replace (S start - alo) with (start + 1 - alo) by lia. assumption.
      * replace (S start) with (start + 1) by lia. assumption.
Qed.

Lemma extend_left_bounds (alo blo bound : nat) (i : nat) :
  forall (j size : nat),
    good alo bound (mkBest i j size) ->
    good alo bound (extend_left a b alo blo i j size).
Proof.
  induction i as [|i IH]; intros j size H; cbn [extend_left]; [assumption|].
  destruct j as [|j]; [assumption|].
  destruct (alo <? S i) eqn:E; cbn [andb]; [|assumption].
  destruct ((blo <? S j) && line_eqb (a !! i) (b !! j)); [|assumption].
  apply IH. apply Nat.ltb_lt in E. unfold good in *. cbn [besti bestsize] in *. lia.
Qed.

Lemma extend_right_bounds (ahi bhi i j room : nat) :
  forall size : nat,
    i + size <= ahi ->
    i + extend_right a b ahi bhi i j room size <= ahi.
Proof.
  induction room as [|room IH]; intros size H; cbn [extend_right]; [assumption|].
  destruct (i + size <? ahi) eqn:E; cbn [andb]; [|assumption].
  destruct ((j + size <? bhi) && line_eqb (a !! (i + size)) (b !! (j + size)));
    [|assumption].
  apply IH. apply Nat.ltb_lt in E. lia.
Qed.

(** The block that [find_longest_match] returns lies in the range asked. *)
Lemma find_longest_match_bounds (alo ahi blo bhi : nat) :
  alo <= ahi ->
  alo <= fst (fst (find_longest_match a b alo ahi blo bhi)) /\
  fst (fst (find_longest_match a b alo ahi blo bhi))
    + snd (find_longest_match a b alo ahi blo bhi) <= ahi.
Proof.
  intros H. unfold find_longest_match.
  pose proof (match_rows_bounds alo blo bhi (ahi - alo) alo ∅ (mkBest alo blo 0)
                (le_n _)) as M.
  replace (alo + (ahi - alo)) with ahi in M by lia.
  set (m := match_rows a b blo bhi (seq alo (ahi - alo)) ∅ (mkBest alo blo 0)) in *.
  assert (Hm : good alo ahi m).
  { apply M; [intros j v; rewrite lookup_empty; discriminate|].
    unfold good. cbn [besti bestsize]. lia. }
  pose proof (extend_left_bounds alo blo ahi (besti m) (bestj m) (bestsize m)) as L.
  set (l := extend_left a b alo blo (besti m) (bestj m) (bestsize m)) in *.
  assert (Hl : good alo ahi l). { apply L. destruct m. exact Hm. }
  cbn [fst snd]. split; [apply Hl|].
  apply extend_right_bounds. apply Hl.
Qed.

Lemma weight_app (q1 q2 : list (nat * nat * nat * nat)) :
  weight (q1 ++ q2) = weight q1 + weight q2.
Proof.
  induction q1 as [|[[[alo ahi] blo] bhi] q1 IH]; cbn [weight app]; [reflexivity|].
  rewrite IH. lia.
Qed.

(** Fuel beyond the weight of the queue is never used. *)
Lemma matching_loop_fuel (fuel : nat) :
  forall (queue : list (nat * nat * nat * nat)) (acc : list block) (extra : nat),
    Forall ordered queue ->
    weight queue <= fuel ->
    matching_loop a b (fuel + extra) queue acc = matching_loop a b fuel queue acc.
Proof.
  induction fuel as [|fuel IH]; intros queue acc extra Hv Hw.
  - destruct queue as [|[[[alo ahi] blo] bhi] q]; [|cbn [weight] in Hw; lia].
    destruct extra; reflexivity.
  - cbn [Nat.add matching_loop].
    destruct (reverse queue) as [|[[[alo ahi] blo] bhi] rest_rev] eqn:E; [reflexivity|].
    assert (Hq : queue = reverse rest_rev ++ [(alo, ahi, blo, bhi)]).
    { rewrite <- (reverse_involutive queue), E, reverse_cons. reflexivity. }
    set (rest := reverse rest_rev) in *. subst queue.
    rewrite weight_app in Hw. cbn [weight] in Hw.
    apply Forall_app in Hv as [Hrest Htop].
    inversion Htop as [|? ? Hord _]; subst. cbn [ordered] in Hord.
    pose proof (find_longest_match_bounds alo ahi blo bhi Hord) as B.
    destruct (find_longest_match a b alo ahi blo bhi) as [[i j] k].
    cbn [fst snd] in B. destruct B as [B1 B2].
    destruct (k =? 0) eqn:K.
    + apply IH; [assumption | lia].
    + apply Nat.eqb_neq in K. apply IH.
      * destruct ((alo <? i) && (blo <? j)) eqn:C1;
          destruct ((i + k <? ahi) && (j + k <? bhi)) eqn:C2;
          repeat (apply Forall_app; split); try assumption;
          repeat constructor; cbn [ordered];
          try (apply andb_true_iff in C1 as [C1 _]; apply Nat.ltb_lt in C1);
          try (apply andb_true_iff in C2 as [C2 _]; apply Nat.ltb_lt in C2); lia.
      * destruct ((alo <? i) && (blo <? j)) eqn:C1;
          destruct ((i + k <? ahi) && (j + k <? bhi)) eqn:C2;
          rewrite ?weight_app; cbn [weight];
          try (apply andb_true_iff in C1 as [C1 _]; apply Nat.ltb_lt in C1);
          try (apply andb_true_iff in C2 as [C2 _]; apply Nat.ltb_lt in C2); lia.
Qed.

(** The fuel given by [get_matching_blocks] lets the queue loop empty its
    queue: more fuel yields the same blocks. *)
Lemma get_matching_blocks_fuel (extra : nat) :
  matching_loop a b (2 * length a + 1 + extra) [(0, length a, 0, length b)] []
  = matching_loop a b (2 * length a + 1) [(0, length a, 0, length b)] [].
Proof.
  apply matching_loop_fuel.
  - repeat constructor. cbn [ordered]. lia.
  - cbn [weight]. lia.
Qed.

End Fuel.

End DifflibFacts.

(** * The matcher on two equal sequences *)

Module DifflibSame.
Import Difflib.

Section Same.

Variable a : list string.























End Same.

End DifflibSame.

(** * Facts about computations *)

Lemma bind_run {A B} (m : M A) (k : A -> M B) (w : World) :
  bind m k w = match m w with
               | (Ok x, w') => k x w'
               | (Raise e, w') => (Raise e, w')
               end.
Proof. reflexivity. Qed.

Lemma quiet_ret {A} (x : A) : quiet (ret x).
Proof. intros w. split; [reflexivity|]. exists []. now rewrite app_nil_r. Qed.

Lemma quiet_raise {A} (e : exn) : quiet (@raise A e).
Proof. intros w. split; [reflexivity|]. exists []. now rewrite app_nil_r. Qed.

Lemma quiet_bind {A B} (m : M A) (k : A -> M B) :
  quiet m -> (forall x, quiet (k x)) -> quiet (bind m k).
Proof.
  intros Hm Hk w. rewrite bind_run. specialize (Hm w).
  destruct (m w) as [[x|e] w1]; simpl in Hm; [|exact Hm].
  destruct Hm as (F1 & evs1 & T1 & W1).
  destruct (Hk x w1) as (F2 & evs2 & T2 & W2).
  split; [congruence|]. exists (evs1 ++ evs2).
  rewrite T2, T1, <- app_assoc. split; [reflexivity|].
  rewrite existsb_app, W1, W2. reflexivity.
Qed.

Lemma quiet_for_each {A} (xs : list A) (body : A -> M unit) :
  (forall x, quiet (body x)) -> quiet (for_each xs body).
Proof.
  intros Hb. induction xs as [|x xs IH]; cbn [for_each].
  - apply quiet_ret.
  - apply quiet_bind; [apply Hb | intros _; exact IH].
Qed.

Lemma quiet_lift_format (r : PyStr.format_error + string) : quiet (lift_format r).
Proof. destruct r as [[]|s]; [apply quiet_raise .. | apply quiet_ret]. Qed.

Lemma quiet_print (s : string) : quiet (print s).
Proof. intros w. split; [reflexivity|]. simpl. eexists. split; reflexivity. Qed.

Lemma quiet_input (prompt : string) : quiet (input prompt).
Proof.
  intros w. unfold input. destruct (stdin w); simpl.
  - split; [reflexivity|]. eexists. split; reflexivity.
  - split; [reflexivity|]. rewrite <- app_assoc. eexists. split; reflexivity.
Qed.

Section Properties.

Variable locate : Path -> string.
Variable ROOT : Path.
Variables CHANGELOG PIPELINE : Path.
Variables JUPYTERLAB_LSP_VERSION JUPYTER_LSP_VERSION : string.
Variables JUPYTERLAB_VERSION REQUIRED_JUPYTERLAB : string.

Abbreviation replace_version := (replace_version locate ROOT).
Abbreviation change_version := (change_version locate ROOT CHANGELOG).
Abbreviation maybe_change_version := (maybe_change_version locate ROOT CHANGELOG).
Abbreviation update_versions_in := (update_versions_in locate ROOT CHANGELOG).
Abbreviation registry :=
  (PACKAGES PIPELINE JUPYTERLAB_LSP_VERSION JUPYTER_LSP_VERSION
     JUPYTERLAB_VERSION REQUIRED_JUPYTERLAB).
Abbreviation main :=
  (main locate ROOT CHANGELOG PIPELINE JUPYTERLAB_LSP_VERSION JUPYTER_LSP_VERSION
     JUPYTERLAB_VERSION REQUIRED_JUPYTERLAB).

Lemma quiet_read_text (p : Path) : quiet (read_text locate p).
Proof.
  intros w. unfold read_text.
  destruct (files w !! locate p); simpl; (split; [reflexivity|]);
    eexists; (split; reflexivity).
Qed.

Lemma quiet_relative_path (p : Path) : quiet (relative_path ROOT p).
Proof.
  unfold relative_path. destruct (is_absolute p); [|apply quiet_ret].
  destruct (relative_to p ROOT); [apply quiet_ret | apply quiet_raise].
Qed.

Lemma quiet_preview (p : Path) (old_content new_content : string) :
  quiet (preview ROOT p old_content new_content).
Proof.
  unfold preview. apply quiet_bind; [apply quiet_relative_path|]. intros shown.
  apply quiet_bind; [apply quiet_print|]. intros _. apply quiet_print.
Qed.

Lemma quiet_replace_version_dry (p : Path) (tmpl old new : string) :
  quiet (replace_version p tmpl old new true).
Proof.
  apply quiet_bind; [apply quiet_read_text|]. intros old_content.
  apply quiet_bind; [apply quiet_lift_format|]. intros old_text.
  apply quiet_bind; [apply quiet_lift_format|]. intros new_text.
  apply quiet_preview.
Qed.

Lemma quiet_change_version_dry (P : PackageVersionInfo) (V : string) :
  quiet (change_version P V true).
Proof.
  apply quiet_bind; [apply quiet_read_text|]. intros changelog.
  apply quiet_bind.
  - destruct (negb (PyStr.contains V changelog)); [|apply quiet_ret].
    apply quiet_bind; [apply quiet_lift_format|]. intros msg. apply quiet_raise.
  - intros _. apply quiet_for_each. intros location.
    apply quiet_replace_version_dry.
Qed.

Lemma quiet_maybe_change_version_dry (P : PackageVersionInfo) :
  quiet (maybe_change_version P true).
Proof.
  apply quiet_bind; [apply quiet_print|]. intros _.
  apply quiet_bind; [apply quiet_input|]. intros typed. cbv zeta.
  destruct (PyStr.truthy (PyStr.strip typed)); [|apply quiet_ret].
  apply quiet_change_version_dry.
Qed.

Lemma quiet_getitem (d : list (string * PackageVersionInfo)) (key : string) :
  quiet (getitem d key).
Proof.
  induction d as [|[k v] d IH]; cbn [getitem]; [apply quiet_raise|].
  destruct (String.eqb k key); [apply quiet_ret | exact IH].
Qed.

Lemma quiet_assert (cond : bool) : quiet (assert cond).
Proof. destruct cond; [apply quiet_ret | apply quiet_raise]. Qed.

Lemma quiet_main_dry (package version : option string) :
  quiet (main (mkArgs true package version)).
Proof.
  unfold main, main_in. cbn [arg_dry arg_package arg_version].
  apply quiet_bind.
  { destruct (given package); [apply quiet_assert | apply quiet_ret]. }
  intros _. apply quiet_bind.
  { destruct (given version); [apply quiet_assert | apply quiet_ret]. }
  intros _. destruct (given package).
  - apply quiet_bind; [apply quiet_getitem|]. intros P.
    apply quiet_change_version_dry.
  - apply quiet_for_each. intros P. apply quiet_maybe_change_version_dry.
Qed.

(** C4. In a dry run no file is changed and nothing is written, for every
    package and every new version: [change_version], [replace_version] and
    the whole script run with [--dry] leave the file store as it was and add
    no write to the trace, whatever the outcome. *)
Theorem dry_run_never_writes (P : PackageVersionInfo) (V : string)
    (p : Path) (tmpl old : string) (package version : option string) (w : World) :
  (let w' := snd (change_version P V true w) in
   files w' = files w /\
   exists evs, trace w' = trace w ++ evs /\ existsb is_write evs = false) /\
  (let w' := snd (replace_version p tmpl old V true w) in
   files w' = files w /\
   exists evs, trace w' = trace w ++ evs /\ existsb is_write evs = false) /\
  (let w' := snd (main (mkArgs true package version) w) in
   files w' = files w /\
   exists evs, trace w' = trace w ++ evs /\ existsb is_write evs = false).
Proof.
  split; [apply quiet_change_version_dry|].
  split; [apply quiet_replace_version_dry | apply quiet_main_dry].
Qed.

Lemma replace_version_run (p : Path) (tmpl old new : string) (dry : bool)
    (w : World) (text old_text new_text : string) :
  files w !! locate p = Some text ->
  PyStr.format tmpl "version" old = inr old_text ->
  PyStr.format tmpl "version" new = inr new_text ->
  replace_version p tmpl old new dry w =
    (if dry then preview ROOT p text (PyStr.replace old_text new_text text)
     else write_text locate p (PyStr.replace old_text new_text text))
      (log (EvRead p) w).
Proof.
  intros Hf Ho Hn. unfold replace_version.
  rewrite bind_run. unfold read_text at 1. rewrite Hf.
  rewrite Ho, Hn. cbn [lift_format]. reflexivity.
Qed.

(** C2. The substitution replaces every occurrence: the content that
    [replace_version] writes (or previews, in a dry run) is the file text in
    which each occurrence of the template rendered with the old version, taken
    from left to right, is replaced by the template rendered with the new
    version. An empty rendered text occurs at every position of the file
    text, and the new text is then found at each of them: the content is the
    characters of the file text, with nothing before and after them, joined
    by the new text. *)
Theorem replace_version_replaces_all (p : Path) (tmpl old new : string)
    (dry : bool) (w : World) (text old_text new_text : string) :
  files w !! locate p = Some text ->
  PyStr.format tmpl "version" old = inr old_text ->
  PyStr.format tmpl "version" new = inr new_text ->
  exists new_content,
    (old_text <> EmptyString -> replaced_all old_text new_text text new_content) /\
    (old_text = EmptyString ->
     new_content = replaced_everywhere new_text text) /\
    replace_version p tmpl old new dry w =
      (if dry then preview ROOT p text new_content
       else write_text locate p new_content) (log (EvRead p) w).
Proof.
  intros Hf Ho Hn. exists (PyStr.replace old_text new_text text).
  split; [|split].
  - intros Hne. destruct old_text; [congruence|].
    apply PyStrFacts.replace_scan_all. discriminate.
  - intros ->. apply PyStrFacts.replace_interleave_everywhere.
  - apply replace_version_run; assumption.
Qed.

Lemma relative_path_in_tree (p : Path) (w : World) :
  in_tree ROOT p = true ->
  exists shown, relative_path ROOT p w = (Ok shown, w).
Proof.
  unfold in_tree, relative_path. destruct (is_absolute p); simpl.
  - destruct (relative_to p ROOT); [eauto | discriminate].
  - eauto.
Qed.

Lemma preview_run (p shown : Path) (old_content new_content : string) (w : World) :
  relative_path ROOT p w = (Ok shown, w) ->
  preview ROOT p old_content new_content w =
    (Ok tt,
     log (EvStdout
            ((PyStr.join nl
               (Difflib.context_diff (PyLines.splitlines old_content)
                  (PyLines.splitlines new_content)
                  "current" "new (proposed update)" 4) +:+ nl) +:+ nl))
       (log (EvStdout
               ((nl +:+ "## Summary of changes proposed to " +:+ to_str shown)
                +:+ nl)) w)).
Proof.
  intros H. unfold preview. rewrite bind_run, H. reflexivity.
Qed.

Lemma replace_version_no_match (p : Path) (tmpl old new : string) (dry : bool)
    (w : World) (text old_text : string) :
  files w !! locate p = Some text ->
  PyStr.format tmpl "version" old = inr old_text ->
  PyStr.contains old_text text = false ->
  (dry = true -> in_tree ROOT p = true) ->
  fst (replace_version p tmpl old new dry w) = Ok tt /\
  files (snd (replace_version p tmpl old new dry w)) = files w.
Proof.
  intros Hf Ho Hc Ht.
  destruct (PyStrFacts.format_any_value _ _ _ new _ Ho) as [new_text Hn].
  rewrite (replace_version_run _ _ _ _ _ _ _ _ _ Hf Ho Hn).
  rewrite PyStrFacts.replace_absent by assumption.
  destruct dry.
  - destruct (relative_path_in_tree p (log (EvRead p) w) (Ht eq_refl)) as [shown Hs].
    rewrite (preview_run _ _ _ _ _ Hs). split; reflexivity.
  - unfold write_text. cbn [fst snd files log]. split; [reflexivity|].
    apply insert_id. assumption.
Qed.

(** The paths written out in the registry are relative, hence in the working
    tree; [PIPELINE] is imported. *)
Lemma registry_paths_in_tree :
  Forall (fun l => path l = PIPELINE \/ in_tree ROOT (path l) = true)
    (flat_map locations (values registry)).
Proof. repeat constructor; (left; reflexivity) || (right; reflexivity). Qed.

(** C5, amended. A location whose rendered old template does not occur in its
    file is no match failure, and nothing is replaced: for a readable file
    and a template that renders, a run that is not dry does nothing but read
    the file and write back the very text it read; a dry run changes no file
    and, when the path lies in the working tree (so that the summary header
    can name it), returns normally. *)
Theorem no_match_is_silent (p : Path) (tmpl old new : string)
    (w : World) (text old_text : string) :
  files w !! locate p = Some text ->
  PyStr.format tmpl "version" old = inr old_text ->
  PyStr.contains old_text text = false ->
  replace_version p tmpl old new false w
  = write_text locate p text (log (EvRead p) w) /\
  files (snd (replace_version p tmpl old new true w)) = files w /\
  (in_tree ROOT p = true ->
   fst (replace_version p tmpl old new true w) = Ok tt).
Proof.
  intros Hf Ho Hc. split; [|split].
  - destruct (PyStrFacts.format_any_value _ _ _ new _ Ho) as [new_text Hn].
    rewrite (replace_version_run _ _ _ _ _ _ _ _ _ Hf Ho Hn).
    rewrite PyStrFacts.replace_absent by assumption. reflexivity.
  - apply quiet_replace_version_dry.
  - intros Ht.
    apply (replace_version_no_match p tmpl old new true w text old_text);
      auto.
Qed.

Lemma getitem_missing (d : list (string * PackageVersionInfo)) (key : string)
    (w : World) :
  has_key d key = false -> getitem d key w = (Raise (KeyError key), w).
Proof.
  unfold has_key. induction d as [|[k v] d IH]; cbn [getitem map existsb fst].
  - reflexivity.
  - intros H. apply orb_false_iff in H as [H1 H2].
    rewrite String.eqb_sym, H1. auto.
Qed.

(** C6. Single-package mode (both [--package] and [--version] given and
    non-empty) with a key that is not in the registry raises the lookup
    failure [KeyError] at once: the world is left exactly as it was, so no
    file is read or written and the substitution engine is not entered. *)
Theorem unknown_package_key (dry : bool) (key version : string) (w : World) :
  PyStr.truthy key = true ->
  PyStr.truthy version = true ->
  has_key registry key = false ->
  main (mkArgs dry (Some key) (Some version)) w = (Raise (KeyError key), w).
Proof.
  intros Hk Hv Hd. unfold main, main_in.
  cbn [arg_package arg_version arg_dry given default]. rewrite Hk, Hv.
  cbn [assert]. cbv [bind ret id].
  rewrite getitem_missing by assumption. reflexivity.
Qed.

Lemma format_brace_free (kw value s : string) :
  brace_free s = true -> PyStr.format s kw value = inr s.
Proof.
  unfold PyStr.format. induction s as [|c s IH]; cbn [brace_free PyStr.format_scan].
  - reflexivity.
  - intros H. apply andb_true_iff in H as [H1 H2].
    apply andb_true_iff in H1 as [Hl Hr].
    apply negb_true_iff in Hl, Hr. rewrite Hl, Hr, (IH H2). reflexivity.
Qed.

Lemma brace_free_app (s t : string) :
  brace_free (s +:+ t) = brace_free s && brace_free t.
Proof.
  induction s as [|c s IH]; [reflexivity|].
  change (String c s +:+ t) with (String c (s +:+ t)).
  cbn [brace_free]. rewrite IH. now rewrite andb_assoc.
Qed.

(** The changelog guard, for a version without braces: the "absent in
    CHANGELOG.md" error is raised after the changelog has been read, and
    nothing else has happened. *)
Lemma changelog_guard (P : PackageVersionInfo) (V : string) (dry : bool)
    (w : World) (changelog : string) :
  files w !! locate CHANGELOG = Some changelog ->
  PyStr.contains V changelog = false ->
  brace_free V = true ->
  change_version P V dry w =
    (Raise (Exception (V +:+ " is absent in CHANGELOG.md file." +:+
                       " Please update the changelog first.")),
     log (EvRead CHANGELOG) w).
Proof.
  intros Hf Hc Hb. unfold change_version.
  rewrite bind_run. unfold read_text at 1. rewrite Hf, Hc. cbn [negb].
  unfold absent_message. rewrite format_brace_free.
  - reflexivity.
  - rewrite brace_free_app, Hb. reflexivity.
Qed.

(** Whatever the version, a failed guard stops [change_version] after the
    changelog has been read: an error is raised and no location is visited. *)
Lemma changelog_guard_stops (P : PackageVersionInfo) (V : string) (dry : bool)
    (w : World) (changelog : string) :
  files w !! locate CHANGELOG = Some changelog ->
  PyStr.contains V changelog = false ->
  exists e, change_version P V dry w = (Raise e, log (EvRead CHANGELOG) w).
Proof.
  intros Hf Hc. unfold change_version.
  rewrite bind_run. unfold read_text at 1. rewrite Hf, Hc. cbn [negb].
  rewrite bind_run.
  destruct (absent_message V) as [[]|msg]; cbn [lift_format]; rewrite bind_run;
    cbn [raise ret]; eauto.
Qed.

(** C3, at the version [{]: the guard's message is an f-string that is passed
    through [str.format] a second time, so a version holding a lone brace makes
    the guard raise [ValueError] from that call instead of the "absent in
    CHANGELOG.md" error. No location file is touched either way. *)
Theorem changelog_guard_lone_brace (P : PackageVersionInfo) (dry : bool)
    (w : World) (changelog : string) :
  files w !! locate CHANGELOG = Some changelog ->
  PyStr.contains "{" changelog = false ->
  change_version P "{" dry w = (Raise ValueError, log (EvRead CHANGELOG) w).
Proof.
  intros Hf Hc. unfold change_version.
  rewrite bind_run. unfold read_text at 1. rewrite Hf, Hc. reflexivity.
Qed.

Lemma maybe_change_version_run (P : PackageVersionInfo) (dry : bool) (w : World)
    (typed : string) (rest : list string) :
  stdin w = typed :: rest ->
  maybe_change_version P dry w =
    if all_space typed then (Ok tt, after_prompt P w typed rest)
    else change_version P (PyStr.strip typed) dry (after_prompt P w typed rest).
Proof.
  intros Hs. unfold maybe_change_version.
  rewrite bind_run. cbn [print]. rewrite bind_run. unfold input.
  cbn [stdin log files trace]. rewrite Hs.
  rewrite PyStrFacts.truthy_strip.
  assert (E : mkWorld (files w) rest
                (((trace w ++ [EvStdout ((("Current " +:+ name P +:+ " version is: "
                                           +:+ current_version P)) +:+ nl)])
                  ++ [EvStdout "Change it to [default=skip]: "]) ++ [EvStdin typed])
              = after_prompt P w typed rest).
  { unfold after_prompt, banner. f_equal. rewrite <- !app_assoc. reflexivity. }
  rewrite E. destruct (all_space typed); reflexivity.
Qed.


(** C8, amended. Interactive mode visits the packages in registry order: for
    the first package it prints the banner with the display name and current
    version, prompts and reads a line; it skips the package when the line is
    empty or whitespace only, otherwise it runs [change_version] on the
    stripped line with the given [dry] flag; then it goes on with the rest of
    the registry. With no package left it does nothing. *)
Theorem interactive_mode_in_registry_order (key : string)
    (P : PackageVersionInfo) (d : list (string * PackageVersionInfo))
    (dry : bool) (w : World) (typed : string) (rest : list string) :
  stdin w = typed :: rest ->
  update_versions_in ((key, P) :: d) dry w =
    (if all_space typed
     then update_versions_in d dry (after_prompt P w typed rest)
     else (change_version P (PyStr.strip typed) dry ;; update_versions_in d dry)
            (after_prompt P w typed rest)) /\
  update_versions_in [] dry w = (Ok tt, w).
Proof.
  intros Hs. split; [|reflexivity].
  unfold update_versions_in. cbn [values map snd for_each].
  rewrite bind_run, (maybe_change_version_run _ _ _ _ _ Hs).
  destruct (all_space typed); [reflexivity|].
  rewrite bind_run. reflexivity.
Qed.

(** When every response is blank, interactive mode only prints and prompts,
    once per package and in registry order. *)
Lemma interactive_mode_all_blank (d : list (string * PackageVersionInfo))
    (dry : bool) :
  forall (w : World) (typed rest : list string),
    length typed = length d ->
    forallb all_space typed = true ->
    stdin w = typed ++ rest ->
    update_versions_in d dry w =
      (Ok tt,
       mkWorld (files w) rest
         (trace w ++
          flat_map (fun '(P, line) =>
                      [EvStdout (banner P +:+ nl);
                       EvStdout "Change it to [default=skip]: ";
                       EvStdin line])
            (zip (values d) typed))).
Proof.
  induction d as [|[key P] d IH]; intros w typed rest HL HB HS.
  - destruct typed; [|discriminate]. cbn [app] in HS. cbn [values map zip zip_with flat_map].
    rewrite app_nil_r. destruct w. cbn in *. subst. reflexivity.
  - destruct typed as [|line typed]; [discriminate|].
    cbn [forallb] in HB. apply andb_true_iff in HB as [HB1 HB2].
    injection HL as HL. cbn [app] in HS.
    unfold update_versions_in. cbn [values map snd for_each].
    rewrite bind_run, (maybe_change_version_run _ _ _ _ _ HS), HB1.
    fold (values d). fold (update_versions_in d dry).
    rewrite (IH (after_prompt P w line (typed ++ rest)) typed rest HL HB2 eq_refl).
    cbn [after_prompt files trace zip zip_with flat_map].
    rewrite <- !app_assoc. reflexivity.
Qed.

(** ** The loop over the locations of a package *)

Lemma replace_version_elsewhere (p : Path) (tmpl old new : string) (dry : bool)
    (w : World) (f : string) :
  locate p <> f ->
  files (snd (replace_version p tmpl old new dry w)) !! f = files w !! f.
Proof.
  intros Hne. unfold replace_version. rewrite bind_run. unfold read_text at 1.
  destruct (files w !! locate p) as [text|]; [|reflexivity].
  destruct (PyStr.format tmpl "version" old) as [[]|old_text];
    cbn [lift_format]; rewrite bind_run; cbn [raise ret]; try reflexivity.
  destruct (PyStr.format tmpl "version" new) as [[]|new_text];
    cbn [lift_format]; rewrite bind_run; cbn [raise ret]; try reflexivity.
  destruct dry.
  - destruct (quiet_preview p text (PyStr.replace old_text new_text text)
                (log (EvRead p) w)) as [-> _]. reflexivity.
  - cbn [write_text snd files log]. apply lookup_insert_ne. assumption.
Qed.

Lemma replace_version_keeps_files (p : Path) (tmpl old new : string) (dry : bool)
    (w : World) (f : string) :
  is_Some (files w !! f) ->
  is_Some (files (snd (replace_version p tmpl old new dry w)) !! f).
Proof.
  intros Hf. destruct (decide (locate p = f)) as [E|E].
  - unfold replace_version. rewrite bind_run. unfold read_text at 1.
    destruct (files w !! locate p) as [text|]; [|exact Hf].
    destruct (PyStr.format tmpl "version" old) as [[]|old_text];
      cbn [lift_format]; rewrite bind_run; cbn [raise ret]; try exact Hf.
    destruct (PyStr.format tmpl "version" new) as [[]|new_text];
      cbn [lift_format]; rewrite bind_run; cbn [raise ret]; try exact Hf.
    destruct dry.
    + destruct (quiet_preview p text (PyStr.replace old_text new_text text)
                  (log (EvRead p) w)) as [-> _]. exact Hf.
    + cbn [write_text snd files log]. rewrite E, lookup_insert_eq. eauto.
  - rewrite replace_version_elsewhere by assumption. exact Hf.
Qed.

Section Loop.

Variables (old new : string) (dry : bool).

Let body (l : VersionLocation) : M unit :=
  replace_version (path l) (template l) old new dry.

Lemma for_each_untargeted (locs : list VersionLocation) (w : World) (f : string) :
  targets locate f locs = false ->
  files (snd (for_each locs body w)) !! f = files w !! f.
Proof.
  revert w. induction locs as [|l locs IH]; intros w; cbn [targets existsb for_each].
  - reflexivity.
  - intros H. apply orb_false_iff in H as [H1 H2].
    apply String.eqb_neq in H1. rewrite bind_run.
    pose proof (replace_version_elsewhere (path l) (template l) old new dry w f H1) as E.
    fold (body l) in E. destruct (body l w) as [[[]|e] w1]; cbn [snd] in *.
    + rewrite (IH w1 H2). exact E.
    + exact E.
Qed.


End Loop.

(** The file of a location that no other location of the list denotes ends up
    holding the replaced text. *)
Lemma for_each_target (old new : string) (locs : list VersionLocation)
    (w : World) (i : nat) (l : VersionLocation) (text old_text new_text : string) :
  let run := for_each locs (fun l =>
               replace_version (path l) (template l) old new false) w in
  fst run = Ok tt ->
  locs !! i = Some l ->
  targets locate (locate (path l)) (delete i locs) = false ->
  files w !! locate (path l) = Some text ->
  PyStr.format (template l) "version" old = inr old_text ->
  PyStr.format (template l) "version" new = inr new_text ->
  files (snd run) !! locate (path l) = Some (PyStr.replace old_text new_text text).
Proof.
  cbv zeta. revert w i. induction locs as [|l0 locs IH]; intros w i Hok Hi Ht Hf Ho Hn.
  - discriminate.
  - cbn [for_each] in *. rewrite bind_run in *. destruct i as [|i].
    + injection Hi as ->. cbn [delete list_delete] in Ht.
      rewrite (replace_version_run _ _ _ _ _ _ _ _ _ Hf Ho Hn) in *.
      cbn [write_text] in *.
      rewrite (for_each_untargeted old new false locs _ _ Ht).
      cbn [files]. apply lookup_insert_eq.
    + cbn [lookup list_lookup] in Hi. cbn [delete list_delete targets existsb] in Ht.
      apply orb_false_iff in Ht as [H1 H2]. apply String.eqb_neq in H1.
      pose proof (replace_version_elsewhere (path l0) (template l0) old new false
                    w _ H1) as E.
      destruct (replace_version (path l0) (template l0) old new false w)
        as [[[]|e] w1]; cbn [fst snd] in *; [|discriminate].
      apply (IH w1 i); try assumption. rewrite E. assumption.
Qed.

Lemma change_version_passes_guard (P : PackageVersionInfo) (V : string)
    (dry : bool) (w : World) (changelog : string) :
  files w !! locate CHANGELOG = Some changelog ->
  PyStr.contains V changelog = true ->
  change_version P V dry w =
    for_each (locations P) (fun l =>
      replace_version (path l) (template l) (current_version P) V dry)
      (log (EvRead CHANGELOG) w).
Proof.
  intros Hf Hc. unfold change_version. rewrite bind_run.
  unfold read_text at 1. rewrite Hf, Hc. reflexivity.
Qed.

Lemma change_version_ok_inv (P : PackageVersionInfo) (V : string) (dry : bool)
    (w : World) :
  fst (change_version P V dry w) = Ok tt ->
  exists changelog,
    files w !! locate CHANGELOG = Some changelog /\
    PyStr.contains V changelog = true.
Proof.
  unfold change_version. rewrite bind_run. unfold read_text at 1.
  destruct (files w !! locate CHANGELOG) as [c|]; [|discriminate].
  destruct (PyStr.contains V c) eqn:E; [eauto|].
  cbn [negb]. rewrite bind_run.
  destruct (absent_message V) as [[]|msg]; cbn [lift_format]; rewrite bind_run;
    cbn [raise ret fst]; discriminate.
Qed.

(** C1, amended. After a non-dry [change_version] that completed, the file of
    a location that no other location of the package denotes, and in which
    the template rendered with the current version occurred exactly once,
    holds its old text with that one occurrence replaced by the template
    rendered with the new version; so it contains the new rendered text. *)
Theorem updated_file_holds_new_version (P : PackageVersionInfo) (V : string)
    (w : World) (i : nat) (l : VersionLocation) (text old_text new_text : string) :
  fst (change_version P V false w) = Ok tt ->
  locations P !! i = Some l ->
  targets locate (locate (path l)) (delete i (locations P)) = false ->
  files w !! locate (path l) = Some text ->
  PyStr.format (template l) "version" (current_version P) = inr old_text ->
  PyStr.format (template l) "version" V = inr new_text ->
  PyStr.occurrences old_text text = 1 ->
  exists pre post,
    text = pre +:+ old_text +:+ post /\
    files (snd (change_version P V false w)) !! locate (path l)
      = Some (pre +:+ new_text +:+ post) /\
    file_contains locate (snd (change_version P V false w)) (path l) new_text = true.
Proof.
  intros Hok Hi Ht Hf Ho Hn Hu.
  destruct (change_version_ok_inv _ _ _ _ Hok) as (c & Hc1 & Hc2).
  rewrite (change_version_passes_guard _ _ _ _ _ Hc1 Hc2) in *.
  destruct (PyStrFacts.replace_unique old_text new_text text Hu) as (pre & post & E1 & E2).
  exists pre, post. split; [assumption|].
  pose proof (for_each_target (current_version P) V (locations P)
                (log (EvRead CHANGELOG) w) i l text old_text new_text
                Hok Hi Ht Hf Ho Hn) as R.
  rewrite E2 in R. split; [exact R|].
  unfold file_contains. rewrite R.
  apply PyStrFacts.contains_iff. eauto.
Qed.

(** ** Running the same change again *)

Lemma replace_version_ok_inv (p : Path) (tmpl old new : string) (dry : bool)
    (w : World) :
  fst (replace_version p tmpl old new dry w) = Ok tt ->
  is_Some (files w !! locate p) /\
  (exists x, PyStr.format tmpl "version" old = inr x) /\
  (exists y, PyStr.format tmpl "version" new = inr y).
Proof.
  unfold replace_version. rewrite bind_run. unfold read_text at 1.
  destruct (files w !! locate p) as [text|]; [|discriminate].
  destruct (PyStr.format tmpl "version" old) as [[]|old_text];
    cbn [lift_format]; rewrite bind_run; cbn [raise ret fst]; try discriminate.
  destruct (PyStr.format tmpl "version" new) as [[]|new_text];
    cbn [lift_format]; rewrite bind_run; cbn [raise ret fst]; try discriminate.
  eauto.
Qed.








(** ** The drivers: argument pairing and dispatch *)

(** X1. When exactly one of [--package] and [--version] is given (an empty
    string counts as not given), the script stops on its [assert] with
    [AssertionError], before any lookup, prompt or file access. *)
Theorem unpaired_arguments_are_refused (dry : bool) (package version : option string)
    (w : World) :
  xorb (given package) (given version) = true ->
  main (mkArgs dry package version) w = (Raise AssertionError, w).
Proof.
  intros H. unfold main, main_in. cbn [arg_package arg_version arg_dry].
  destruct (given package), (given version); try discriminate H; reflexivity.
Qed.

Lemma getitem_found (d : list (string * PackageVersionInfo)) (key : string)
    (w : World) :
  has_key d key = true ->
  exists P, In (key, P) d /\ getitem d key w = (Ok P, w).
Proof.
  unfold has_key. induction d as [|[k v] d IH]; cbn [getitem map existsb fst].
  - discriminate.
  - intros H. rewrite String.eqb_sym in H. destruct (String.eqb k key) eqn:E.
    + apply String.eqb_eq in E. subst k. exists v. split; [left|]; reflexivity.
    + cbn [orb] in H. destruct (IH H) as (P & HP & HG).
      exists P. split; [right; assumption | assumption].
Qed.

(** X2. Single-package mode with a key of the registry does exactly one thing:
    it runs [change_version] on the package registered under that key, with
    the version and the [dry] flag of the command line. *)
Theorem known_key_runs_change_version (dry : bool) (key version : string)
    (w : World) :
  PyStr.truthy key = true ->
  PyStr.truthy version = true ->
  has_key registry key = true ->
  exists P,
    In (key, P) registry /\
    main (mkArgs dry (Some key) (Some version)) w = change_version P version dry w.
Proof.
  intros Hk Hv Hd. destruct (getitem_found _ _ w Hd) as (P & HP & HG).
  exists P. split; [assumption|].
  unfold main, main_in. cbn [arg_package arg_version arg_dry given default].
  rewrite Hk, Hv. cbn [assert]. cbv [bind ret id]. rewrite HG. reflexivity.
Qed.

(** ** Failures of one location, and the files that exist *)


Lemma replace_version_makes_no_file (p : Path) (tmpl old new : string)
    (dry : bool) (w : World) (f : string) :
  is_Some (files (snd (replace_version p tmpl old new dry w)) !! f) ->
  is_Some (files w !! f).
Proof.
  destruct (decide (locate p = f)) as [E|E];
    [|rewrite replace_version_elsewhere by assumption; auto].
  unfold replace_version. rewrite bind_run. unfold read_text at 1.
  destruct (files w !! locate p) as [text|] eqn:Hp; [|auto].
  destruct (PyStr.format tmpl "version" old) as [[]|old_text];
    cbn [lift_format]; rewrite bind_run; cbn [raise ret]; auto.
  destruct (PyStr.format tmpl "version" new) as [[]|new_text];
    cbn [lift_format]; rewrite bind_run; cbn [raise ret]; auto.
  destruct dry.
  - destruct (quiet_preview p text (PyStr.replace old_text new_text text)
                (log (EvRead p) w)) as [-> _]. auto.
  - intros _. rewrite <- E, Hp. eauto.
Qed.

Lemma for_each_same_files (old new : string) (dry : bool)
    (locs : list VersionLocation) :
  forall w : World,
    same_files w (snd (for_each locs (fun l =>
                         replace_version (path l) (template l) old new dry) w)).
Proof.
  induction locs as [|l locs IH]; intros w f; [reflexivity|].
  cbn [for_each]. rewrite bind_run.
  pose proof (replace_version_keeps_files (path l) (template l) old new dry w f) as K.
  pose proof (replace_version_makes_no_file (path l) (template l) old new dry w f) as N.
  destruct (replace_version (path l) (template l) old new dry w)
    as [[[]|e] w1]; cbn [snd] in *.
  - rewrite <- (IH w1 f). split; assumption.
  - split; assumption.
Qed.

(** X3. A run neither creates nor deletes a file: after [change_version], in
    either mode and whatever the outcome, the files that exist are the files
    that existed before. A location is written only after its file has been
    read, so that a location whose file is missing creates no file. *)
Theorem files_neither_created_nor_deleted (P : PackageVersionInfo) (V : string)
    (dry : bool) (w : World) :
  same_files w (snd (change_version P V dry w)).
Proof.
  intros f. unfold change_version. rewrite bind_run. unfold read_text at 1.
  destruct (files w !! locate CHANGELOG) as [c|]; [|reflexivity].
  rewrite bind_run. destruct (negb (PyStr.contains V c)).
  - rewrite bind_run.
    destruct (absent_message V) as [[]|msg]; cbn [lift_format raise ret];
      reflexivity.
  - cbn [ret].
    apply (for_each_same_files (current_version P) V dry (locations P)
             (log (EvRead CHANGELOG) w) f).
Qed.



(** ** The changelog guard, as a whole *)

(** X5. Nothing is written without a changelog entry: when the changelog file
    is missing, or does not contain the new version, [change_version] raises
    and leaves every file as it was, having made no write, in either mode
    and for every version (whatever error the guard ends up raising). *)
Theorem no_entry_no_write (P : PackageVersionInfo) (V : string) (dry : bool)
    (w : World) :
  file_contains locate w CHANGELOG V = false ->
  (exists e, fst (change_version P V dry w) = Raise e) /\
  files (snd (change_version P V dry w)) = files w /\
  trace (snd (change_version P V dry w)) = trace w ++ [EvRead CHANGELOG].
Proof.
  unfold file_contains. intros H.
  destruct (files w !! locate CHANGELOG) as [c|] eqn:Hc.
  - destruct (changelog_guard_stops P V dry w c Hc H) as [e ->].
    cbn [fst snd log files trace]. split; [eauto | split; reflexivity].
  - unfold change_version. rewrite bind_run. unfold read_text. rewrite Hc.
    cbn [fst snd log files trace]. split; [eauto | split; reflexivity].
Qed.

(** X6. [change_version] touches only the files of the package's locations:
    a file that no location of the package denotes (the changelog, as a
    rule) has the same content afterwards, in either mode and whatever the
    outcome. *)
Theorem other_files_are_untouched (P : PackageVersionInfo) (V : string)
    (dry : bool) (w : World) (f : string) :
  targets locate f (locations P) = false ->
  files (snd (change_version P V dry w)) !! f = files w !! f.
Proof.
  intros HT. unfold change_version. rewrite bind_run. unfold read_text at 1.
  destruct (files w !! locate CHANGELOG) as [c|]; [|reflexivity].
  rewrite bind_run. destruct (negb (PyStr.contains V c)).
  - rewrite bind_run.
    destruct (absent_message V) as [[]|msg]; cbn [lift_format raise ret];
      reflexivity.
  - cbn [ret]. rewrite (for_each_untargeted (current_version P) V dry _ _ _ HT).
    reflexivity.
Qed.

(** ** What a run prints and reads *)

Lemma confined_ret {A} (allowed : event -> bool) (x : A) : confined allowed (ret x).
Proof. intros w. split; [reflexivity|]. exists []. now rewrite app_nil_r. Qed.

Lemma confined_raise {A} (allowed : event -> bool) (e : exn) :
  confined allowed (@raise A e).
Proof. intros w. split; [reflexivity|]. exists []. now rewrite app_nil_r. Qed.

Lemma confined_bind {A B} (allowed : event -> bool) (m : M A) (k : A -> M B) :
  confined allowed m -> (forall x, confined allowed (k x)) ->
  confined allowed (bind m k).
Proof.
  intros Hm Hk w. rewrite bind_run. specialize (Hm w).
  destruct (m w) as [[x|e] w1]; cbn [snd] in Hm; [|exact Hm].
  destruct Hm as (S1 & evs1 & T1 & W1).
  destruct (Hk x w1) as (S2 & evs2 & T2 & W2).
  split; [congruence|]. exists (evs1 ++ evs2).
  rewrite T2, T1, <- app_assoc. split; [reflexivity|].
  rewrite forallb_app, W1, W2. reflexivity.
Qed.

Lemma confined_for_each {A} (allowed : event -> bool) (xs : list A)
    (body : A -> M unit) :
  (forall x, confined allowed (body x)) -> confined allowed (for_each xs body).
Proof.
  intros Hb. induction xs as [|x xs IH]; cbn [for_each].
  - apply confined_ret.
  - apply confined_bind; [apply Hb | intros _; exact IH].
Qed.

Lemma confined_lift_format (allowed : event -> bool)
    (r : PyStr.format_error + string) : confined allowed (lift_format r).
Proof. destruct r as [[]|s]; [apply confined_raise .. | apply confined_ret]. Qed.

Lemma confined_read_text (allowed : event -> bool) (p : Path) :
  allowed (EvRead p) = true -> confined allowed (read_text locate p).
Proof.
  intros Ha w. unfold read_text.
  destruct (files w !! locate p); cbn [snd log stdin trace];
    (split; [reflexivity|]); exists [EvRead p]; cbn [forallb]; rewrite Ha; auto.
Qed.

Lemma confined_write_text (allowed : event -> bool) (p : Path) (s : string) :
  allowed (EvWrite p s) = true -> confined allowed (write_text locate p s).
Proof.
  intros Ha w. cbn [write_text snd stdin trace]. split; [reflexivity|].
  exists [EvWrite p s]. cbn [forallb]. rewrite Ha. auto.
Qed.

Lemma confined_print (s : string) : confined not_stdin (print s).
Proof.
  intros w. cbn [print snd log stdin trace]. split; [reflexivity|].
  eexists. split; reflexivity.
Qed.

Lemma confined_replace_version_real (p : Path) (tmpl old new : string) :
  confined is_file_io (replace_version p tmpl old new false).
Proof.
  apply confined_bind; [apply confined_read_text; reflexivity|]. intros text.
  apply confined_bind; [apply confined_lift_format|]. intros old_text.
  apply confined_bind; [apply confined_lift_format|]. intros new_text.
  apply confined_write_text. reflexivity.
Qed.

Lemma confined_replace_version (p : Path) (tmpl old new : string) (dry : bool) :
  confined not_stdin (replace_version p tmpl old new dry).
Proof.
  apply confined_bind; [apply confined_read_text; reflexivity|]. intros text.
  apply confined_bind; [apply confined_lift_format|]. intros old_text.
  apply confined_bind; [apply confined_lift_format|]. intros new_text.
  destruct dry; [|apply confined_write_text; reflexivity].
  unfold preview. apply confined_bind.
  - unfold relative_path. destruct (is_absolute p); [|apply confined_ret].
    destruct (relative_to p ROOT); [apply confined_ret | apply confined_raise].
  - intros shown. apply confined_bind; [apply confined_print|].
    intros _. apply confined_print.
Qed.

Lemma confined_guard (allowed : event -> bool) (V changelog : string) :
  confined allowed
    (if negb (PyStr.contains V changelog)
     then do msg <- lift_format (absent_message V); raise (Exception msg)
     else ret tt).
Proof.
  destruct (negb (PyStr.contains V changelog)); [|apply confined_ret].
  apply confined_bind; [apply confined_lift_format|]. intros msg.
  apply confined_raise.
Qed.

Lemma confined_change_version (P : PackageVersionInfo) (V : string) (dry : bool) :
  confined not_stdin (change_version P V dry).
Proof.
  apply confined_bind; [apply confined_read_text; reflexivity|]. intros changelog.
  apply confined_bind; [apply confined_guard|]. intros _.
  apply confined_for_each. intros l. apply confined_replace_version.
Qed.

(** X7. A run that is not dry is silent: [change_version] with [dry] off
    prints nothing and reads nothing from the console; everything it adds to
    the trace is a read or a write of a file, whatever the outcome. *)
Theorem real_run_is_silent (P : PackageVersionInfo) (V : string) (w : World) :
  stdin (snd (change_version P V false w)) = stdin w /\
  exists evs,
    trace (snd (change_version P V false w)) = trace w ++ evs /\
    forallb is_file_io evs = true.
Proof.
  revert w. change (confined is_file_io (change_version P V false)).
  apply confined_bind; [apply confined_read_text; reflexivity|]. intros changelog.
  apply confined_bind; [apply confined_guard|]. intros _.
  apply confined_for_each. intros l. apply confined_replace_version_real.
Qed.

(** ** Interactive mode: running out of input, and failures *)

Lemma maybe_change_version_eof (P : PackageVersionInfo) (dry : bool) (w : World) :
  stdin w = [] ->
  maybe_change_version P dry w =
    (Raise EOFError,
     mkWorld (files w) []
       (trace w ++ [EvStdout (banner P +:+ nl);
                    EvStdout "Change it to [default=skip]: "])).
Proof.
  intros Hs. unfold maybe_change_version.
  rewrite bind_run. cbn [print]. rewrite bind_run. unfold input.
  cbn [stdin log files trace]. rewrite Hs. unfold banner, log.
  cbn [stdin files trace]. rewrite Hs, <- !app_assoc. reflexivity.
Qed.

(** X8. When the input ends before every package has been asked about,
    interactive mode stops with [EOFError] at the first prompt left without
    a line: with blank lines for the first packages and nothing after them,
    the run raises [EOFError] and no file has changed. *)
Theorem input_runs_out (d : list (string * PackageVersionInfo)) (dry : bool) :
  forall (w : World) (typed : list string),
    length typed < length d ->
    forallb all_space typed = true ->
    stdin w = typed ->
    fst (update_versions_in d dry w) = Raise EOFError /\
    files (snd (update_versions_in d dry w)) = files w.
Proof.
  induction d as [|[key P] d IH]; intros w typed HL HB HS.
  - cbn [length] in HL. lia.
  - unfold update_versions_in. cbn [values map snd for_each]. rewrite bind_run.
    destruct typed as [|line typed].
    + rewrite (maybe_change_version_eof _ _ _ HS). split; reflexivity.
    + cbn [forallb] in HB. apply andb_true_iff in HB as [HB1 HB2].
      rewrite (maybe_change_version_run _ _ _ _ _ HS), HB1.
      fold (values d). fold (update_versions_in d dry).
      cbn [length] in HL.
      destruct (IH (after_prompt P w line typed) typed ltac:(lia) HB2 eq_refl)
        as [I1 I2].
      split; [exact I1 | exact I2].
Qed.

(** X9. A failure stops interactive mode for good: when [change_version]
    raises for the package being asked about, [update_versions] raises the
    same error, the packages after it are not prompted, and the lines typed
    for them stay unread. *)
Theorem failure_ends_interactive_mode (key : string) (P : PackageVersionInfo)
    (d : list (string * PackageVersionInfo)) (dry : bool) (w : World)
    (typed : string) (rest : list string) (e : exn) :
  let w1 := after_prompt P w typed rest in
  stdin w = typed :: rest ->
  all_space typed = false ->
  fst (change_version P (PyStr.strip typed) dry w1) = Raise e ->
  update_versions_in ((key, P) :: d) dry w
    = (Raise e, snd (change_version P (PyStr.strip typed) dry w1)) /\
  stdin (snd (update_versions_in ((key, P) :: d) dry w)) = rest.
Proof.
  cbv zeta. intros HS HB HR.
  unfold update_versions_in. cbn [values map snd for_each]. rewrite bind_run.
  rewrite (maybe_change_version_run _ _ _ _ _ HS), HB.
  destruct (confined_change_version P (PyStr.strip typed) dry
              (after_prompt P w typed rest)) as [HI _].
  destruct (change_version P (PyStr.strip typed) dry (after_prompt P w typed rest))
    as [[[]|e1] w2]; cbn [fst snd] in *; [discriminate|].
  injection HR as ->. split; [reflexivity | exact HI].
Qed.

(** ** What ends up in the files *)

(** X10. Bumping to the version a package already has replaces nothing: for
    a readable file and a template that renders, [replace_version] with the
    old version as the new one does nothing but read the file and write back
    the very text it read (whether or not the rendered text occurs in it); in
    a dry run it previews that text against itself. *)
Theorem same_version_writes_back (p : Path) (tmpl v : string) (dry : bool)
    (w : World) (text rendered : string) :
  files w !! locate p = Some text ->
  PyStr.format tmpl "version" v = inr rendered ->
  replace_version p tmpl v v dry w =
    (if dry then preview ROOT p text text
     else write_text locate p text) (log (EvRead p) w).
Proof.
  intros Hf Hv.
  rewrite (replace_version_run _ _ _ _ _ _ _ _ _ Hf Hv Hv).
  rewrite PyStrFacts.replace_same. reflexivity.
Qed.


(** The text of the file [f] after a loop that completed: the locations that
    denote [f] have been applied to it one after the other, in list order. *)
Lemma for_each_composes (old new : string) (f : string)
    (locs : list VersionLocation) :
  forall (w : World) (text : string),
    fst (for_each locs (fun l =>
           replace_version (path l) (template l) old new false) w) = Ok tt ->
    files w !! f = Some text ->
    files (snd (for_each locs (fun l =>
                  replace_version (path l) (template l) old new false) w)) !! f
    = Some (fold_left (apply_location locate f old new) locs text).
Proof.
  induction locs as [|l locs IH]; intros w text Hok Hf; [exact Hf|].
  cbn [for_each fold_left] in *. rewrite bind_run in *.
  pose proof (replace_version_ok_inv (path l) (template l) old new false w) as I.
  pose proof (replace_version_elsewhere (path l) (template l) old new false w f) as E.
  destruct (replace_version (path l) (template l) old new false w)
    as [[[]|e] w1] eqn:R; cbn [fst snd] in *; [|discriminate].
  destruct (I eq_refl) as ([text0 Hf0] & [x Hx] & [y Hy]).
  apply IH; [assumption|].
  unfold apply_location. rewrite Hx, Hy.
  destruct (String.eqb (locate (path l)) f) eqn:Q.
  - apply String.eqb_eq in Q. rewrite Q in Hf0.
    assert (text0 = text) by congruence. subst text0. rewrite <- Q in Hf.
    rewrite (replace_version_run _ _ _ _ _ _ _ _ _ Hf Hx Hy) in R.
    cbn [write_text] in R. injection R as <-. cbn [files].
    rewrite <- Q. apply lookup_insert_eq.
  - apply String.eqb_neq in Q. rewrite (E Q). assumption.
Qed.

(** X12. Locations compose: after a non-dry [change_version] that completed,
    the text of any file is its old text to which the locations of the
    package that denote the file have been applied one after the other, in
    list order, each working on what the one before it wrote. *)
Theorem locations_compose (P : PackageVersionInfo) (V : string) (w : World)
    (f text : string) :
  fst (change_version P V false w) = Ok tt ->
  files w !! f = Some text ->
  files (snd (change_version P V false w)) !! f
  = Some (fold_left (apply_location locate f (current_version P) V)
            (locations P) text).
Proof.
  intros Hok Hf.
  destruct (change_version_ok_inv _ _ _ _ Hok) as (c & Hc1 & Hc2).
  rewrite (change_version_passes_guard _ _ _ _ _ Hc1 Hc2) in *.
  apply for_each_composes; assumption.
Qed.

(** X13. Every template of the registry renders, for every version string
    (also one that holds braces): the result is the template's text with the
    version in place of the slot. *)
Theorem registry_templates_render (v : string) :
  Forall (fun l => exists pre suf,
            template l = pre +:+ "{version}" +:+ suf /\
            PyStr.format (template l) "version" v = inr (pre +:+ v +:+ suf))
    (flat_map locations (values registry)).
Proof.
  repeat constructor.
  - exists ("__version__ = " +:+ dquote), dquote. split; [reflexivity|].
    apply (PyStrFacts.format_slot "version" v ("__version__ = " +:+ dquote) dquote);
      reflexivity.
  - exists "PY_JLSP_VERSION: ", EmptyString. split; [reflexivity|].
    apply (PyStrFacts.format_slot "version" v "PY_JLSP_VERSION: " EmptyString);
      reflexivity.
  - exists (dquote +:+ "version" +:+ dquote +:+ ": " +:+ dquote), dquote.
    split; [reflexivity|].
    apply (PyStrFacts.format_slot "version" v
             (dquote +:+ "version" +:+ dquote +:+ ": " +:+ dquote) dquote);
      reflexivity.
  - exists "JS_JLLSP_VERSION: ", EmptyString. split; [reflexivity|].
    apply (PyStrFacts.format_slot "version" v "JS_JLLSP_VERSION: " EmptyString);
      reflexivity.
  - exists (dquote +:+ "version" +:+ dquote +:+ ": " +:+ dquote), dquote.
    split; [reflexivity|].
    apply (PyStrFacts.format_slot "version" v
             (dquote +:+ "version" +:+ dquote +:+ ": " +:+ dquote) dquote);
      reflexivity.
  - exists (dquote +:+ "@jupyterlab/application" +:+ dquote +:+ ": " +:+ dquote +:+ "~"),
      dquote.
    split; [reflexivity|].
    apply (PyStrFacts.format_slot "version" v
             (dquote +:+ "@jupyterlab/application" +:+ dquote +:+ ": " +:+ dquote +:+ "~")
             dquote);
      reflexivity.
  - exists "jupyterlab ", EmptyString. split; [reflexivity|].
    apply (PyStrFacts.format_slot "version" v "jupyterlab " EmptyString);
      reflexivity.
  - exists "jupyterlab ", EmptyString. split; [reflexivity|].
    apply (PyStrFacts.format_slot "version" v "jupyterlab " EmptyString);
      reflexivity.
  - exists "JupyterLab ", EmptyString. split; [reflexivity|].
    apply (PyStrFacts.format_slot "version" v "JupyterLab " EmptyString);
      reflexivity.
Qed.

(** ** The path shown by a preview *)

Lemma strip_parts_app (pre l : list string) : strip_parts pre (pre ++ l) = Some l.
Proof.
  induction pre as [|x pre IH]; [reflexivity|].
  cbn [app strip_parts]. rewrite String.eqb_refl. exact IH.
Qed.

(** X14. A preview names its file relative to the working directory: for an
    absolute path below [ROOT] (itself absolute, being [Path.cwd()]) the
    dry-run branch prints exactly what it prints for the relative path. *)
Theorem preview_names_path_from_root (components : list string)
    (old_content new_content : string) (w : World) :
  is_absolute ROOT = true ->
  preview ROOT (mkPath true (parts ROOT ++ components)) old_content new_content w
  = preview ROOT (rel components) old_content new_content w.
Proof.
  intros HR. unfold preview, relative_path, relative_to.
  cbn [is_absolute parts rel]. rewrite HR. cbn [Bool.eqb].
  rewrite strip_parts_app. reflexivity.
Qed.


(** ** The response typed at the prompt *)

(** X16. A response that is not empty and has no whitespace at either end is
    passed to [change_version] exactly as typed (inner whitespace included). *)
Theorem clean_response_is_passed_as_typed (P : PackageVersionInfo) (dry : bool)
    (w : World) (typed : string) (rest : list string) :
  stdin w = typed :: rest ->
  PyStr.truthy typed = true ->
  not_space (first_char typed) = true ->
  not_space (last_char typed) = true ->
  maybe_change_version P dry w
  = change_version P typed dry (after_prompt P w typed rest).
Proof.
  intros Hs Ht H1 H2. rewrite (maybe_change_version_run _ _ _ _ _ Hs).
  pose proof (PyStrFacts.truthy_strip typed) as E.
  rewrite (PyStrFacts.strip_fixed _ H1 H2) in *. rewrite Ht in E.
  destruct (all_space typed); [discriminate | reflexivity].
Qed.

(** ** The error of the guard *)

(** X17. For a version without braces that the changelog does not contain,
    the guard raises [Exception] with the message
    [<version> is absent in CHANGELOG.md file. Please update the changelog
    first.], the changelog having been read and nothing else done. *)
Theorem guard_error_names_the_version (P : PackageVersionInfo) (V : string)
    (dry : bool) (w : World) (changelog : string) :
  files w !! locate CHANGELOG = Some changelog ->
  PyStr.contains V changelog = false ->
  brace_free V = true ->
  change_version P V dry w =
    (Raise (Exception (V +:+ " is absent in CHANGELOG.md file." +:+
                       " Please update the changelog first.")),
     log (EvRead CHANGELOG) w).
Proof. apply changelog_guard. Qed.

(** X18. With a blank line for every package, interactive mode only prints
    and prompts, once per package and in registry order: it returns
    normally, no file is read or written, and the lines after those it
    needed stay unread. *)
Theorem all_blank_run_only_prompts (d : list (string * PackageVersionInfo))
    (dry : bool) (w : World) (typed rest : list string) :
  length typed = length d ->
  forallb all_space typed = true ->
  stdin w = typed ++ rest ->
  update_versions_in d dry w =
    (Ok tt,
     mkWorld (files w) rest
       (trace w ++
        flat_map (fun '(P, line) =>
                    [EvStdout (banner P +:+ nl);
                     EvStdout "Change it to [default=skip]: ";
                     EvStdin line])
          (zip (values d) typed))).
Proof. apply interactive_mode_all_blank. Qed.

(** ** The order of the file accesses *)

Lemma for_each_file_steps (old new : string) (locs : list VersionLocation) :
  forall w : World,
    fst (for_each locs (fun l =>
           replace_version (path l) (template l) old new false) w) = Ok tt ->
    exists evs,
      trace (snd (for_each locs (fun l =>
                    replace_version (path l) (template l) old new false) w))
      = trace w ++ evs /\
      map file_step evs
      = flat_map (fun l => [Some (false, path l); Some (true, path l)]) locs.
Proof.
  induction locs as [|l locs IH]; intros w Hok.
  - exists []. cbn [for_each ret snd]. rewrite app_nil_r. auto.
  - cbn [for_each] in *. rewrite bind_run in *.
    pose proof (replace_version_ok_inv (path l) (template l) old new false w) as I.
    destruct (replace_version (path l) (template l) old new false w)
      as [[[]|e] w1] eqn:R; cbn [fst snd] in *; [|discriminate].
    destruct (I eq_refl) as ([text Hf] & [x Hx] & [y Hy]).
    rewrite (replace_version_run _ _ _ _ _ _ _ _ _ Hf Hx Hy) in R.
    cbn [write_text log trace] in R. injection R as <-.
    destruct (IH _ Hok) as (evs & T & S). rewrite T. cbn [trace].
    exists ([EvRead (path l); EvWrite (path l) (PyStr.replace x y text)] ++ evs).
    split.
    + rewrite <- !app_assoc. reflexivity.
    + cbn [app map file_step flat_map]. rewrite S. reflexivity.
Qed.

(** X19. A non-dry [change_version] that completes reads the changelog first
    and then, for each location in list order, reads the location's file and
    writes that same file: these are all its file accesses, in that order. *)
Theorem file_accesses_in_list_order (P : PackageVersionInfo) (V : string)
    (w : World) :
  fst (change_version P V false w) = Ok tt ->
  exists evs,
    trace (snd (change_version P V false w)) = trace w ++ evs /\
    map file_step evs
    = Some (false, CHANGELOG)
      :: flat_map (fun l => [Some (false, path l); Some (true, path l)])
           (locations P).
Proof.
  intros Hok.
  destruct (change_version_ok_inv _ _ _ _ Hok) as (c & Hc1 & Hc2).
  rewrite (change_version_passes_guard _ _ _ _ _ Hc1 Hc2) in *.
  destruct (for_each_file_steps _ _ _ _ Hok) as (evs & T & S).
  exists (EvRead CHANGELOG :: evs). split.
  - rewrite T. cbn [log trace]. rewrite <- app_assoc. reflexivity.
  - cbn [map file_step]. rewrite S. reflexivity.
Qed.

(** ** A dry run as a rehearsal *)






(** ** The preview of a location that changes nothing *)


End Properties.

(** * Worked examples *)

Abbreviation sample_replace_version :=
  (replace_version Sample.locate Sample.ROOT).
Abbreviation sample_change_version :=
  (change_version Sample.locate Sample.ROOT Sample.CHANGELOG).
Abbreviation sample_maybe_change_version :=
  (maybe_change_version Sample.locate Sample.ROOT Sample.CHANGELOG).
Abbreviation sample_update_versions_in :=
  (update_versions_in Sample.locate Sample.ROOT Sample.CHANGELOG).

(** The backend of the sample registry is the package used below. *)
Example backend_in_registry :
  getitem (Sample.registry "2.0.0") "jupyter-lsp" (Sample.checkout "2.0.0" "x" [])
  = (Ok (Sample.backend "2.0.0"), Sample.checkout "2.0.0" "x" []).
Proof. reflexivity. Qed.

(** C1 at the bump of the backend from 2.0.0 to 2.0.1: the version file. *)
Lemma updated_file_holds_new_version_witness :
  exists pre post,
    "__version__ = " +:+ dquote +:+ "2.0.0" +:+ dquote +:+ nl
      = pre +:+ ("__version__ = " +:+ dquote +:+ "2.0.0" +:+ dquote) +:+ post /\
    files (snd (sample_change_version (Sample.backend "2.0.0") "2.0.1" false
                  (Sample.checkout "2.0.0" "## 2.0.1" [])))
      !! Sample.locate Sample.VERSION_PY
      = Some (pre +:+ ("__version__ = " +:+ dquote +:+ "2.0.1" +:+ dquote) +:+ post) /\
    file_contains Sample.locate
      (snd (sample_change_version (Sample.backend "2.0.0") "2.0.1" false
              (Sample.checkout "2.0.0" "## 2.0.1" [])))
      Sample.VERSION_PY ("__version__ = " +:+ dquote +:+ "2.0.1" +:+ dquote) = true.
Proof.
  apply (updated_file_holds_new_version Sample.locate Sample.ROOT Sample.CHANGELOG
           (Sample.backend "2.0.0") "2.0.1" (Sample.checkout "2.0.0" "## 2.0.1" [])
           0 (mkLocation Sample.VERSION_PY
                ("__version__ = " +:+ dquote +:+ "{version}" +:+ dquote)));
    vm_compute; reflexivity.
Defined.

(** C1 fails as stated. First, the old rendered text can survive the update:
    bumping 1.0 to 1.0.1 turns the pipeline line into one that still contains
    [PY_JLSP_VERSION: 1.0]. Second, a later location of the same file can
    undo an earlier one: with the templates [a{version}] and [{version}] on
    one file and the bump of 1 to 21, the file ends as [a221], which does not
    contain [a21]. In both runs each old rendered text occurred exactly once. *)
Lemma updated_file_counterexample :
  (let w := Sample.checkout "1.0" "## 1.0.1" [] in
   let w' := snd (sample_change_version (Sample.backend "1.0") "1.0.1" false w) in
   fst (sample_change_version (Sample.backend "1.0") "1.0.1" false w) = Ok tt /\
   file_contains Sample.locate w Sample.CHANGELOG "1.0.1" = true /\
   PyStr.format "PY_JLSP_VERSION: {version}" "version" "1.0"
     = inr "PY_JLSP_VERSION: 1.0" /\
   PyStr.occurrences "PY_JLSP_VERSION: 1.0" ("  PY_JLSP_VERSION: 1.0" +:+ nl) = 1 /\
   files w !! Sample.locate Sample.PIPELINE = Some ("  PY_JLSP_VERSION: 1.0" +:+ nl) /\
   file_contains Sample.locate w' Sample.PIPELINE "PY_JLSP_VERSION: 1.0" = true) /\
  (let w := Sample.notes "a1" "21" in
   let w' := snd (sample_change_version Sample.twice "21" false w) in
   fst (sample_change_version Sample.twice "21" false w) = Ok tt /\
   file_contains Sample.locate w Sample.CHANGELOG "21" = true /\
   PyStr.format "a{version}" "version" "1" = inr "a1" /\
   PyStr.format "a{version}" "version" "21" = inr "a21" /\
   PyStr.format "{version}" "version" "1" = inr "1" /\
   PyStr.occurrences "a1" "a1" = 1 /\
   PyStr.occurrences "1" "a1" = 1 /\
   files w' !! Sample.locate Sample.NOTES = Some "a221" /\
   file_contains Sample.locate w' Sample.NOTES "a21" = false).
Proof. vm_compute. repeat split. Qed.

(** C2 on a text with two occurrences, one of them inside a longer version,
    and on a template that renders an empty old version to the empty text. *)
Lemma replace_version_replaces_all_witness :
  (exists new_content,
     ("jupyterlab 2.0" <> EmptyString ->
      replaced_all "jupyterlab 2.0" "jupyterlab 2.1"
        "jupyterlab 2.0, not jupyterlab 2.0.3" new_content) /\
     ("jupyterlab 2.0" = EmptyString ->
      new_content = replaced_everywhere "jupyterlab 2.1"
                      "jupyterlab 2.0, not jupyterlab 2.0.3") /\
     sample_replace_version Sample.NOTES "jupyterlab {version}" "2.0" "2.1" false
       (Sample.notes "jupyterlab 2.0, not jupyterlab 2.0.3" "2.1")
     = write_text Sample.locate Sample.NOTES new_content
         (log (EvRead Sample.NOTES)
            (Sample.notes "jupyterlab 2.0, not jupyterlab 2.0.3" "2.1"))) /\
  (exists new_content,
     (EmptyString <> EmptyString ->
      replaced_all EmptyString "-" "ab" new_content) /\
     (EmptyString = EmptyString ->
      new_content = replaced_everywhere "-" "ab") /\
     sample_replace_version Sample.NOTES "{version}" EmptyString "-" false
       (Sample.notes "ab" "-")
     = write_text Sample.locate Sample.NOTES new_content
         (log (EvRead Sample.NOTES) (Sample.notes "ab" "-"))).
Proof.
  split.
  - apply (replace_version_replaces_all Sample.locate Sample.ROOT Sample.NOTES
             "jupyterlab {version}" "2.0" "2.1" false
             (Sample.notes "jupyterlab 2.0, not jupyterlab 2.0.3" "2.1")
             "jupyterlab 2.0, not jupyterlab 2.0.3"
             "jupyterlab 2.0" "jupyterlab 2.1");
      vm_compute; reflexivity.
  - apply (replace_version_replaces_all Sample.locate Sample.ROOT Sample.NOTES
             "{version}" EmptyString "-" false (Sample.notes "ab" "-")
             "ab" EmptyString "-");
      vm_compute; reflexivity.
Defined.

(** The empty old text: the new text is put at each of the three positions of
    a text of two characters. *)
Example empty_text_replaced_everywhere :
  replaced_everywhere "-" "ab" = "-a-b-" /\
  files (snd (sample_replace_version Sample.NOTES "{version}" EmptyString "-" false
                (Sample.notes "ab" "-")))
    !! Sample.locate Sample.NOTES
  = Some "-a-b-".
Proof. vm_compute. split; reflexivity. Qed.

(** Both occurrences are replaced, also the one inside [2.0.3]. *)
Example both_occurrences_replaced :
  files (snd (sample_replace_version Sample.NOTES "jupyterlab {version}" "2.0" "2.1"
                false (Sample.notes "jupyterlab 2.0, not jupyterlab 2.0.3" "2.1")))
    !! Sample.locate Sample.NOTES
  = Some "jupyterlab 2.1, not jupyterlab 2.1.3".
Proof. vm_compute. reflexivity. Qed.

(** C3 at the version [{], on a checkout whose changelog has no brace. *)
Lemma changelog_guard_lone_brace_witness :
  sample_change_version (Sample.backend "2.0.0") "{" false
    (Sample.checkout "2.0.0" "## 2.0.1" [])
  = (Raise ValueError,
     log (EvRead Sample.CHANGELOG) (Sample.checkout "2.0.0" "## 2.0.1" [])).
Proof.
  apply (changelog_guard_lone_brace Sample.locate Sample.ROOT Sample.CHANGELOG
           (Sample.backend "2.0.0") false (Sample.checkout "2.0.0" "## 2.0.1" [])
           "## 2.0.1");
    vm_compute; reflexivity.
Defined.

(** For a version without braces the guard raises its own error. *)
Example guard_message_without_braces :
  sample_change_version (Sample.backend "2.0.0") "2.0.2" false
    (Sample.checkout "2.0.0" "## 2.0.1" [])
  = (Raise (Exception
              "2.0.2 is absent in CHANGELOG.md file. Please update the changelog first."),
     log (EvRead Sample.CHANGELOG) (Sample.checkout "2.0.0" "## 2.0.1" [])).
Proof.
  apply (changelog_guard Sample.locate Sample.ROOT Sample.CHANGELOG
           (Sample.backend "2.0.0") "2.0.2" false _ "## 2.0.1");
    vm_compute; reflexivity.
Qed.

(** C5 as claimed fails in a dry run on a file outside the working tree: the
    rendered old text does not occur in the file, and the run raises
    [ValueError] when it builds the summary header, having read the file. *)
Lemma no_match_counterexample :
  let w := Cases.with_outside ("VERSION=2.0.0" +:+ nl) in
  files w !! Sample.locate Cases.OUTSIDE = Some ("VERSION=2.0.0" +:+ nl) /\
  PyStr.format "VERSION={version}" "version" "1.9.0" = inr "VERSION=1.9.0" /\
  PyStr.contains "VERSION=1.9.0" ("VERSION=2.0.0" +:+ nl) = false /\
  sample_replace_version Cases.OUTSIDE "VERSION={version}" "1.9.0" "2.0.1" true w
  = (Raise ValueError, log (EvRead Cases.OUTSIDE) w).
Proof. vm_compute. repeat split. Qed.

(** C5, amended, on a checkout at 2.0.0 asked to replace 1.9.0. *)
Lemma no_match_is_silent_witness :
  sample_replace_version Sample.PIPELINE "PY_JLSP_VERSION: {version}"
    "1.9.0" "2.0.1" false (Sample.checkout "2.0.0" "## 2.0.1" [])
  = write_text Sample.locate Sample.PIPELINE ("  PY_JLSP_VERSION: 2.0.0" +:+ nl)
      (log (EvRead Sample.PIPELINE) (Sample.checkout "2.0.0" "## 2.0.1" [])) /\
  files (snd (sample_replace_version Sample.PIPELINE "PY_JLSP_VERSION: {version}"
                "1.9.0" "2.0.1" true (Sample.checkout "2.0.0" "## 2.0.1" [])))
  = files (Sample.checkout "2.0.0" "## 2.0.1" []) /\
  fst (sample_replace_version Sample.PIPELINE "PY_JLSP_VERSION: {version}"
         "1.9.0" "2.0.1" true (Sample.checkout "2.0.0" "## 2.0.1" [])) = Ok tt.
Proof.
  destruct (no_match_is_silent Sample.locate Sample.ROOT Sample.PIPELINE
              "PY_JLSP_VERSION: {version}" "1.9.0" "2.0.1"
              (Sample.checkout "2.0.0" "## 2.0.1" [])
              ("  PY_JLSP_VERSION: 2.0.0" +:+ nl) "PY_JLSP_VERSION: 1.9.0")
    as (H1 & H2 & H3); [vm_compute; reflexivity .. |].
  split; [exact H1 | split; [exact H2 | apply H3; vm_compute; reflexivity]].
Defined.

(** The same request written out: the file is rewritten with its own text. *)
Example no_match_rewrites_same_text :
  sample_replace_version Sample.PIPELINE "PY_JLSP_VERSION: {version}"
    "1.9.0" "2.0.1" false (Sample.checkout "2.0.0" "## 2.0.1" [])
  = (Ok tt,
     mkWorld (files (Sample.checkout "2.0.0" "## 2.0.1" [])) []
       [EvRead Sample.PIPELINE;
        EvWrite Sample.PIPELINE ("  PY_JLSP_VERSION: 2.0.0" +:+ nl)]).
Proof. vm_compute. reflexivity. Qed.

(** C6 on the key [jupyter_lsp], which is not a key of the registry. *)
Lemma unknown_package_key_witness :
  main Sample.locate Sample.ROOT Sample.CHANGELOG Sample.PIPELINE
    "3.0.0" "2.0.0" "3.0.0" ">=3.0.0,<4.0.0a0"
    (mkArgs false (Some "jupyter_lsp") (Some "2.0.1"))
    (Sample.checkout "2.0.0" "## 2.0.1" [])
  = (Raise (KeyError "jupyter_lsp"), Sample.checkout "2.0.0" "## 2.0.1" []).
Proof.
  apply (unknown_package_key Sample.locate Sample.ROOT Sample.CHANGELOG
           Sample.PIPELINE "3.0.0" "2.0.0" "3.0.0" ">=3.0.0,<4.0.0a0"
           false "jupyter_lsp" "2.0.1" (Sample.checkout "2.0.0" "## 2.0.1" []));
    vm_compute; reflexivity.
Defined.



(** C8 on the sample registry with the responses of a user who skips the
    first package with a blank line. *)
Lemma interactive_mode_in_registry_order_witness :
  sample_update_versions_in (Sample.registry "2.0.0") true
    (Sample.checkout "2.0.0" "## 2.0.1" ["  "; " 3.1.0 "])
  = sample_update_versions_in (tail (Sample.registry "2.0.0")) true
      (after_prompt (Sample.backend "2.0.0")
         (Sample.checkout "2.0.0" "## 2.0.1" ["  "; " 3.1.0 "]) "  " [" 3.1.0 "])
  /\ sample_update_versions_in [] true
       (Sample.checkout "2.0.0" "## 2.0.1" ["  "; " 3.1.0 "])
     = (Ok tt, Sample.checkout "2.0.0" "## 2.0.1" ["  "; " 3.1.0 "]).
Proof.
  apply (interactive_mode_in_registry_order Sample.locate Sample.ROOT
           Sample.CHANGELOG "jupyter-lsp" (Sample.backend "2.0.0")
           (tail (Sample.registry "2.0.0")) true
           (Sample.checkout "2.0.0" "## 2.0.1" ["  "; " 3.1.0 "]) "  " [" 3.1.0 "]).
  reflexivity.
Defined.

(** With every response blank, the banners of the four packages appear in
    registry order and nothing else happens. *)
Example interactive_mode_all_skipped :
  sample_update_versions_in (Sample.registry "2.0.0") false
    (Sample.checkout "2.0.0" "## 2.0.1" [EmptyString; " "; EmptyString; "  "])
  = (Ok tt,
     mkWorld (files (Sample.checkout "2.0.0" "## 2.0.1" [])) []
       [EvStdout ("Current jupyter-lsp (Python backend) version is: 2.0.0" +:+ nl);
        EvStdout "Change it to [default=skip]: "; EvStdin EmptyString;
        EvStdout ("Current jupyterlab-lsp (frontend package) version is: 3.0.0" +:+ nl);
        EvStdout "Change it to [default=skip]: "; EvStdin " ";
        EvStdout ("Current JupyterLab - exact version is: 3.0.0" +:+ nl);
        EvStdout "Change it to [default=skip]: "; EvStdin EmptyString;
        EvStdout ("Current JupyterLab - range version is: >=3.0.0,<4.0.0a0" +:+ nl);
        EvStdout "Change it to [default=skip]: "; EvStdin "  "]).
Proof. reflexivity. Qed.

(** C8 fails as stated: the response of one space is not empty, yet the
    package is skipped. The run performs no file access at all, whereas
    entering the substitution engine with that response reads the changelog
    (which here holds a space, so the engine would go on and rewrite files). *)
Lemma interactive_mode_counterexample :
  let w := Sample.checkout "2.0.0" "## 2.0.1" [" "] in
  let d := [("jupyter-lsp", Sample.backend "2.0.0")] in
  " " <> EmptyString /\
  sample_update_versions_in d false w
    = (Ok tt, after_prompt (Sample.backend "2.0.0") w " " []) /\
  existsb is_file_io (trace (snd (sample_update_versions_in d false w))) = false /\
  existsb is_file_io
    (trace (snd (sample_change_version (Sample.backend "2.0.0") " " false
                   (after_prompt (Sample.backend "2.0.0") w " " [])))) = true /\
  fst (sample_change_version (Sample.backend "2.0.0") " " false
         (after_prompt (Sample.backend "2.0.0") w " " [])) = Ok tt.
Proof. vm_compute. repeat split. discriminate. Qed.




(** The stripped response reaches the files; a blank one reaches nothing. *)
Example stripped_response_reaches_files :
  PyStr.strip " 2.0.1  " = "2.0.1" /\
  files (snd (sample_maybe_change_version (Sample.backend "2.0.0") false
                (Sample.checkout "2.0.0" "## 2.0.1" [" 2.0.1  "])))
    !! Sample.locate Sample.PIPELINE = Some ("  PY_JLSP_VERSION: 2.0.1" +:+ nl) /\
  sample_maybe_change_version (Sample.backend "2.0.0") false
    (Sample.checkout "2.0.0" "## 2.0.1" ["   "])
  = (Ok tt, after_prompt (Sample.backend "2.0.0")
              (Sample.checkout "2.0.0" "## 2.0.1" ["   "]) "   " []).
Proof. vm_compute. repeat split. Qed.

(** * Worked examples for the further properties *)

Abbreviation sample_main :=
  (main Sample.locate Sample.ROOT Sample.CHANGELOG Sample.PIPELINE
     "3.0.0" "2.0.0" "3.0.0" ">=3.0.0,<4.0.0a0").

(** X1 on [--package jupyter-lsp] without [--version], and on an empty
    [--package] with a version. *)
Lemma unpaired_arguments_are_refused_witness :
  sample_main (mkArgs false (Some "jupyter-lsp") None)
    (Sample.checkout "2.0.0" "## 2.0.1" [])
  = (Raise AssertionError, Sample.checkout "2.0.0" "## 2.0.1" []) /\
  sample_main (mkArgs false (Some EmptyString) (Some "2.0.1"))
    (Sample.checkout "2.0.0" "## 2.0.1" [])
  = (Raise AssertionError, Sample.checkout "2.0.0" "## 2.0.1" []).
Proof.
  split;
    apply (unpaired_arguments_are_refused Sample.locate Sample.ROOT Sample.CHANGELOG
             Sample.PIPELINE "3.0.0" "2.0.0" "3.0.0" ">=3.0.0,<4.0.0a0");
    reflexivity.
Defined.

(** X2 on the key [jupyter-lsp]. *)
Lemma known_key_runs_change_version_witness :
  exists P,
    In ("jupyter-lsp", P) (Sample.registry "2.0.0") /\
    sample_main (mkArgs false (Some "jupyter-lsp") (Some "2.0.1"))
      (Sample.checkout "2.0.0" "## 2.0.1" [])
    = sample_change_version P "2.0.1" false (Sample.checkout "2.0.0" "## 2.0.1" []).
Proof.
  apply (known_key_runs_change_version Sample.locate Sample.ROOT Sample.CHANGELOG
           Sample.PIPELINE "3.0.0" "2.0.0" "3.0.0" ">=3.0.0,<4.0.0a0"
           false "jupyter-lsp" "2.0.1" (Sample.checkout "2.0.0" "## 2.0.1" []));
    reflexivity.
Defined.

(** On a checkout without its pipeline file, the run stops at the missing
    file and does not create it. *)
Example missing_file_is_not_created :
  let r := sample_change_version (Sample.backend "2.0.0") "2.0.1" false
             (Cases.no_pipeline "2.0.0" "## 2.0.1") in
  fst r = Raise (FileNotFoundError Sample.PIPELINE) /\
  files (snd r) !! Sample.locate Sample.PIPELINE = None.
Proof. vm_compute. split; reflexivity. Qed.


(** X5 on a checkout without its changelog. *)
Lemma no_entry_no_write_witness :
  (exists e, fst (sample_change_version (Sample.backend "2.0.0") "2.0.1" false
                    (Cases.no_changelog "2.0.0")) = Raise e) /\
  files (snd (sample_change_version (Sample.backend "2.0.0") "2.0.1" false
                (Cases.no_changelog "2.0.0")))
  = files (Cases.no_changelog "2.0.0") /\
  trace (snd (sample_change_version (Sample.backend "2.0.0") "2.0.1" false
                (Cases.no_changelog "2.0.0")))
  = trace (Cases.no_changelog "2.0.0") ++ [EvRead Sample.CHANGELOG].
Proof.
  apply (no_entry_no_write Sample.locate Sample.ROOT Sample.CHANGELOG
           (Sample.backend "2.0.0") "2.0.1" false (Cases.no_changelog "2.0.0")).
  vm_compute. reflexivity.
Defined.

(** X6 on the changelog, which the backend's locations do not denote. *)
Lemma other_files_are_untouched_witness :
  files (snd (sample_change_version (Sample.backend "2.0.0") "2.0.1" false
                (Sample.checkout "2.0.0" "## 2.0.1" [])))
    !! Sample.locate Sample.CHANGELOG
  = files (Sample.checkout "2.0.0" "## 2.0.1" []) !! Sample.locate Sample.CHANGELOG.
Proof.
  apply (other_files_are_untouched Sample.locate Sample.ROOT Sample.CHANGELOG
           (Sample.backend "2.0.0") "2.0.1" false
           (Sample.checkout "2.0.0" "## 2.0.1" [])).
  vm_compute. reflexivity.
Defined.

(** X8 on the sample registry of four packages with two blank lines typed. *)
Lemma input_runs_out_witness :
  fst (sample_update_versions_in (Sample.registry "2.0.0") false
         (Sample.checkout "2.0.0" "## 2.0.1" [" "; EmptyString]))
  = Raise EOFError /\
  files (snd (sample_update_versions_in (Sample.registry "2.0.0") false
                (Sample.checkout "2.0.0" "## 2.0.1" [" "; EmptyString])))
  = files (Sample.checkout "2.0.0" "## 2.0.1" [" "; EmptyString]).
Proof.
  apply (input_runs_out Sample.locate Sample.ROOT Sample.CHANGELOG
           (Sample.registry "2.0.0") false
           (Sample.checkout "2.0.0" "## 2.0.1" [" "; EmptyString])
           [" "; EmptyString]);
    [vm_compute; lia | reflexivity | reflexivity].
Defined.

(** X9 on a first response that the changelog does not contain: the second
    line stays unread. *)
Lemma failure_ends_interactive_mode_witness :
  let w := Sample.checkout "2.0.0" "## 2.0.1" ["9.9.9"; "3.1.0"] in
  let w1 := after_prompt (Sample.backend "2.0.0") w "9.9.9" ["3.1.0"] in
  sample_update_versions_in (Sample.registry "2.0.0") false w
  = (Raise (Exception
              "9.9.9 is absent in CHANGELOG.md file. Please update the changelog first."),
     snd (sample_change_version (Sample.backend "2.0.0") (PyStr.strip "9.9.9")
            false w1)) /\
  stdin (snd (sample_update_versions_in (Sample.registry "2.0.0") false w))
  = ["3.1.0"].
Proof.
  apply (failure_ends_interactive_mode Sample.locate Sample.ROOT Sample.CHANGELOG
           "jupyter-lsp" (Sample.backend "2.0.0") (tail (Sample.registry "2.0.0"))
           false (Sample.checkout "2.0.0" "## 2.0.1" ["9.9.9"; "3.1.0"])
           "9.9.9" ["3.1.0"]);
    vm_compute; reflexivity.
Defined.


(** X12 on the package with two locations in one file: the second location
    works on what the first wrote. *)
Lemma locations_compose_witness :
  files (snd (sample_change_version Sample.twice "21" false (Sample.notes "a1" "21")))
    !! Sample.locate Sample.NOTES
  = Some (PyStr.replace "1" "21" (PyStr.replace "a1" "a21" "a1")).
Proof.
  apply (locations_compose Sample.locate Sample.ROOT Sample.CHANGELOG
           Sample.twice "21" (Sample.notes "a1" "21")
           (Sample.locate Sample.NOTES) "a1");
    vm_compute; reflexivity.
Defined.

(** X14 on the pipeline file of the sample checkout. *)
Lemma preview_names_path_from_root_witness :
  preview Sample.ROOT Sample.PIPELINE "a" "b" (Sample.checkout "2.0.0" "x" [])
  = preview Sample.ROOT (rel ["ci"; "job.test.yml"]) "a" "b"
      (Sample.checkout "2.0.0" "x" []).
Proof.
  apply (preview_names_path_from_root Sample.ROOT ["ci"; "job.test.yml"] "a" "b"
           (Sample.checkout "2.0.0" "x" [])).
  reflexivity.
Defined.


(** X16 on a pre-release version typed without blanks around it. *)
Lemma clean_response_is_passed_as_typed_witness :
  sample_maybe_change_version (Sample.backend "2.0.0") true
    (Sample.checkout "2.0.0" "## 2.0.1 rc1" ["2.0.1 rc1"])
  = sample_change_version (Sample.backend "2.0.0") "2.0.1 rc1" true
      (after_prompt (Sample.backend "2.0.0")
         (Sample.checkout "2.0.0" "## 2.0.1 rc1" ["2.0.1 rc1"]) "2.0.1 rc1" []).
Proof.
  apply (clean_response_is_passed_as_typed Sample.locate Sample.ROOT
           Sample.CHANGELOG (Sample.backend "2.0.0") true
           (Sample.checkout "2.0.0" "## 2.0.1 rc1" ["2.0.1 rc1"]) "2.0.1 rc1" []);
    reflexivity.
Defined.

(** X17 on the version 2.0.2, absent from the sample changelog. *)
Lemma guard_error_names_the_version_witness :
  sample_change_version (Sample.backend "2.0.0") "2.0.2" true
    (Sample.checkout "2.0.0" "## 2.0.1" [])
  = (Raise (Exception
              "2.0.2 is absent in CHANGELOG.md file. Please update the changelog first."),
     log (EvRead Sample.CHANGELOG) (Sample.checkout "2.0.0" "## 2.0.1" [])).
Proof.
  apply (guard_error_names_the_version Sample.locate Sample.ROOT Sample.CHANGELOG
           (Sample.backend "2.0.0") "2.0.2" true
           (Sample.checkout "2.0.0" "## 2.0.1" []) "## 2.0.1");
    vm_compute; reflexivity.
Defined.

(** X18 on the sample registry, four blank lines and one more line. *)
Lemma all_blank_run_only_prompts_witness :
  sample_update_versions_in (Sample.registry "2.0.0") false
    (Sample.checkout "2.0.0" "## 2.0.1"
       [EmptyString; " "; EmptyString; "  "; "left over"])
  = (Ok tt,
     mkWorld
       (files (Sample.checkout "2.0.0" "## 2.0.1" []))
       ["left over"]
       ([] ++
        flat_map (fun '(P, line) =>
                    [EvStdout (banner P +:+ nl);
                     EvStdout "Change it to [default=skip]: ";
                     EvStdin line])
          (zip (values (Sample.registry "2.0.0"))
             [EmptyString; " "; EmptyString; "  "]))).
Proof.
  apply (all_blank_run_only_prompts Sample.locate Sample.ROOT Sample.CHANGELOG
           (Sample.registry "2.0.0") false
           (Sample.checkout "2.0.0" "## 2.0.1"
              [EmptyString; " "; EmptyString; "  "; "left over"])
           [EmptyString; " "; EmptyString; "  "] ["left over"]);
    reflexivity.
Defined.

(** X19 on the bump of the backend from 2.0.0 to 2.0.1. *)
Lemma file_accesses_in_list_order_witness :
  exists evs,
    trace (snd (sample_change_version (Sample.backend "2.0.0") "2.0.1" false
                  (Sample.checkout "2.0.0" "## 2.0.1" [])))
    = trace (Sample.checkout "2.0.0" "## 2.0.1" []) ++ evs /\
    map file_step evs
    = Some (false, Sample.CHANGELOG)
      :: flat_map (fun l => [Some (false, path l); Some (true, path l)])
           (locations (Sample.backend "2.0.0")).
Proof.
  apply (file_accesses_in_list_order Sample.locate Sample.ROOT Sample.CHANGELOG
           (Sample.backend "2.0.0") "2.0.1" (Sample.checkout "2.0.0" "## 2.0.1" [])).
  vm_compute. reflexivity.
Defined.

(** X10 on a checkout at 2.0.0 asked for 2.0.0. *)
Lemma same_version_writes_back_witness :
  sample_replace_version Sample.PIPELINE "PY_JLSP_VERSION: {version}"
    "2.0.0" "2.0.0" false (Sample.checkout "2.0.0" "## 2.0.0" [])
  = write_text Sample.locate Sample.PIPELINE ("  PY_JLSP_VERSION: 2.0.0" +:+ nl)
      (log (EvRead Sample.PIPELINE) (Sample.checkout "2.0.0" "## 2.0.0" [])).
Proof.
  apply (same_version_writes_back Sample.locate Sample.ROOT Sample.PIPELINE
           "PY_JLSP_VERSION: {version}" "2.0.0" false
           (Sample.checkout "2.0.0" "## 2.0.0" [])
           ("  PY_JLSP_VERSION: 2.0.0" +:+ nl) "PY_JLSP_VERSION: 2.0.0");
    vm_compute; reflexivity.
Defined.


